(** * Growth metrics of the retail-statistics scripts

    A shallow embedding of the period-change and CAGR computations of the
    analysis scripts (analysis.py, thesis_key_findings.py,
    comprehensive_analysis.py, english_visualization.py,
    fixed_visualization.py, create_presentation_figures.py), of the
    scripts that read their results back (fix_cagr_graph.py,
    display_results.py), and the properties of these computations.

    Numbers are IEEE binary64 values (Rocq's primitive floats), as in
    Python and numpy: a null cell of a table is NaN, a numpy division by
    zero yields an infinity or NaN, a division of Python floats by zero
    raises ZeroDivisionError. *)

From Stdlib Require Import ZArith List Floats.PrimFloat.
From Stdlib Require Uint63 Floats.SpecFloat Floats.FloatAxioms.
From stdpp Require Import gmap strings list sorting.

(** ** Python values and exceptions *)

Module Py.

Inductive exn : Type :=
| KeyError (key : string)
| IndexError
| ZeroDivisionError
| ValueError.

(** The outcome of a Python expression: a value, or a raised exception. *)
Inductive result (A : Type) : Type :=
| Ok (a : A)
| Raise (e : exn).
Arguments Ok {A} a.
Arguments Raise {A} e.

Definition bind {A B} (c : result A) (k : A -> result B) : result B :=
  match c with
  | Ok a => k a
  | Raise e => Raise e
  end.

Definition is_Ok {A} (c : result A) : Prop :=
  match c with Ok _ => True | Raise _ => False end.

(** A [for] loop that updates an accumulator and stops at the first
    exception. *)
Fixpoint for_each {A S} (l : list A) (body : S -> A -> result S) (s : S)
  : result S :=
  match l with
  | [] => Ok s
  | a :: l' => bind (body s a) (for_each l' body)
  end.

(** [d = {}] followed by [for k in keys: ...; d[k] = v], where the body
    either computes the value [v] stored under [k], or stores nothing
    for [k], or raises. *)
Definition dict_for {V} (keys : list string)
    (entry : string -> result (option V)) : result (gmap string V) :=
  for_each keys
    (fun d k =>
       bind (entry k)
         (fun o => Ok (match o with Some v => <[k := v]> d | None => d end)))
    ∅.

(** [l = []] followed by [for k in keys: ...; l.append(r) ...], where the
    body computes the records appended for [k], or raises. *)
Definition list_for {R} (keys : list string)
    (records : string -> result (list R)) : result (list R) :=
  for_each keys (fun l k => bind (records k) (fun rs => Ok (l ++ rs))) [].

(** [a / b] on Python floats. *)
Definition truediv (a b : float) : result float :=
  if (b =? 0)%float then Raise ZeroDivisionError else Ok (a / b)%float.

(** [min(l)] and [max(l)] on a list of integers. *)
Definition min (l : list Z) : result Z :=
  match l with
  | [] => Raise ValueError
  | x :: l' => Ok (fold_left Z.min l' x)
  end.

Definition max (l : list Z) : result Z :=
  match l with
  | [] => Raise ValueError
  | x :: l' => Ok (fold_left Z.max l' x)
  end.

End Py.

Export Py(exn(..), result(..)).

#[global] Instance result_ret : MRet result := @Ok.
#[global] Instance result_bind : MBind result := fun A B k c => Py.bind c k.
#[global] Instance result_fmap : FMap result :=
  fun A B f c => Py.bind c (fun a => Ok (f a)).

(** ** Tables *)

Module Pandas.

(** One row of the retail table: the city (column [city] of the CSV
    table, [cityName] of the unified JSON dataset), the year, the numeric
    columns by name (a null cell is NaN) and the text columns by name
    ([region], and the columns the scripts add). *)
Record Row : Type := mkRow {
  city : string;
  year : Z;
  metrics : gmap string float;
  labels : gmap string string
}.

Abbreviation DataFrame := (list Row).

(** [df[df[city_column] == c]] *)
Definition of_city (c : string) (df : DataFrame) : DataFrame :=
  filter (fun r => city r = c) df.

(** [df[df['year'] == y]] *)
Definition of_year (y : Z) (df : DataFrame) : DataFrame :=
  filter (fun r => year r = y) df.

(** [df[df['year'] != y]] *)
Definition not_of_year (y : Z) (df : DataFrame) : DataFrame :=
  filter (fun r => year r <> y) df.

(** [series.unique()]: the distinct values, in order of first appearance. *)
Fixpoint unique_from {A} `{EqDecision A} (seen l : list A) : list A :=
  match l with
  | [] => []
  | x :: l' =>
      if decide (x ∈ seen) then unique_from seen l'
      else x :: unique_from (x :: seen) l'
  end.

Definition unique {A} `{EqDecision A} (l : list A) : list A :=
  unique_from [] l.

(** [df[column].unique()] for the city column. *)
Definition cities (df : DataFrame) : list string := unique (map city df).

(** [row[column]] for a numeric column. *)
Definition cell (column : string) (r : Row) : result float :=
  match metrics r !! column with
  | Some v => Ok v
  | None => Raise (KeyError column)
  end.

(** [df[column].iloc[0]] *)
Definition iloc0 (column : string) (df : DataFrame) : result float :=
  match df with
  | [] => Raise IndexError
  | r :: _ => cell column r
  end.

(** [df[column].values] *)
Definition values (column : string) (df : DataFrame) : result (list float) :=
  mapM (cell column) df.

(** [df.sort_values('year')]: rows in increasing year, rows of the same
    year in their order in [df]. *)
Fixpoint insert_by_year (r : Row) (l : DataFrame) : DataFrame :=
  match l with
  | [] => [r]
  | r' :: l' =>
      if (year r <=? year r')%Z then r :: l
      else r' :: insert_by_year r l'
  end.

Fixpoint sort_values_year (df : DataFrame) : DataFrame :=
  match df with
  | [] => []
  | r :: l => insert_by_year r (sort_values_year l)
  end.

End Pandas.

Import Pandas.

(** ** analysis.py *)

Module Analysis.

(** The entry of one metric in the period comparison:
    [{'start': .., 'end': .., 'change_pct': .., 'change_abs': ..}]. *)
Record MetricChange : Type := mkMetricChange {
  start : float;
  end_ : float;
  change_pct : float;
  change_abs : float
}.

(** [period_stats]: city, then period, then metric. The dicts are finite
    maps: the order of their keys is not modelled. *)
Abbreviation PeriodChange := (gmap string MetricChange).
Abbreviation CityStats := (gmap string PeriodChange).
Abbreviation PeriodStats := (gmap string CityStats).

(** Line 39: [df['period'] = df['year'].apply(lambda x: '2007-2012' if x
    <= 2012 else '2012-2021')], an assignment into the caller's table. *)
Definition period_label (x : Z) : string :=
  if (x <=? 2012)%Z then "2007-2012" else "2012-2021".

Definition add_period_column (df : DataFrame) : DataFrame :=
  map (fun r => mkRow (city r) (year r) (metrics r)
                  (<["period" := period_label (year r)]> (labels r))) df.

Definition periods : list string := ["2007-2012"; "2012-2021"].

(** Lines 51-56: the start and end years of a period of the loop. *)
Definition period_years (period : string) : Z * Z :=
  if decide (period = "2007-2012") then (2007, 2012)%Z else (2012, 2021)%Z.

Definition table_metrics : list string :=
  ["establishments"; "employees"; "sales"; "salesArea"].

(** Lines 63-72, the body of the loop over the metrics: the entry stored
    under the metric. The values are Python floats ([float(...)]), so the
    division raises on a zero start value. *)
Definition metric_change (start_data end_data : DataFrame) (metric : string)
  : result (option MetricChange) :=
  start_val ← iloc0 metric start_data;
  end_val ← iloc0 metric end_data;
  ratio ← Py.truediv (end_val - start_val) start_val;
  mret (Some (mkMetricChange start_val end_val (ratio * 100)
                (end_val - start_val))).

(** Lines 58-74: the comparison of the rows selected for the two ends of
    a period; nothing is stored when either selection is empty. *)
Definition compare_rows (start_data end_data : DataFrame)
  : result (option PeriodChange) :=
  if bool_decide (0 < length start_data ∧ 0 < length end_data) then
    Some <$> Py.dict_for table_metrics (metric_change start_data end_data)
  else mret None.

(** Lines 50-74, the body of the loop over the periods. *)
Definition period_change (city_data : DataFrame) (period : string)
  : result (option PeriodChange) :=
  let '(y_start, y_end) := period_years period in
  compare_rows (of_year y_start city_data) (of_year y_end city_data).

(** Lines 46-76, the body of the loop over the cities: [city_stats]. *)
Definition city_stats (df : DataFrame) (c : string)
  : result (option CityStats) :=
  Some <$> Py.dict_for periods (period_change (of_city c df)).

(** Lines 44-76: [period_stats]. *)
Definition period_stats_of (df : DataFrame) : result PeriodStats :=
  Py.dict_for (cities df) (city_stats df).

(** The clock: [pd.Timestamp.now()]. *)
Record Timestamp : Type := mkTimestamp {
  ts_year : Z;
  ts_month : Z;
  ts_day : Z;
  ts_nanosecond_of_day : Z
}.

(** The Markdown report, as the data its text is built from (lines
    98-172): the date of the run, the cities and year range of the
    summary, the per-city tables and the comparison of the two cities
    of 2021. *)
Record MarkdownReport : Type := mkMarkdownReport {
  analysis_date : Z * Z * Z;
  summary_cities : list string;
  summary_years : Z * Z;
  city_tables : PeriodStats;
  latest_comparison : option (Z * string * string
                              * list (string * float * float * float))
}.

Definition comparison_metrics : list string :=
  ["establishments"; "employees"; "sales"; "salesArea"; "salesPerEmployee"].

(** Lines 163-170: one table line per metric that both rows have. The
    values are numpy floats: the ratio is computed without a check. *)
Definition comparison_lines (city1 city2 : Row)
  : list (string * float * float * float) :=
  omap (fun metric =>
          match metrics city1 !! metric, metrics city2 !! metric with
          | Some val1, Some val2 => Some (metric, val1, val2, (val2 / val1)%float)
          | _, _ => None
          end) comparison_metrics.

Definition generate_markdown_report (now : Timestamp)
    (period_stats : PeriodStats) (df : DataFrame) : result MarkdownReport :=
  let years := map year df in
  first_year ← Py.min years;
  last_year ← Py.max years;
  let latest :=
    match of_year 2021 df with
    | [city1; city2] =>
        Some (last_year, city city1, city city2, comparison_lines city1 city2)
    | _ => None
    end in
  mret (mkMarkdownReport (ts_year now, ts_month now, ts_day now)
          (elements (dom period_stats)) (first_year, last_year)
          period_stats latest).

Inductive Document : Type :=
| Json (period_stats : PeriodStats)
| Markdown (report : MarkdownReport).

(** What a call leaves behind: the caller's table after the call, the
    files written, and the value returned or the exception raised. *)
Record Run : Type := mkRun {
  table : DataFrame;
  written : list (string * Document);
  outcome : result PeriodStats
}.

(** [create_period_comparison_table(df)] at clock [now]. *)
Definition create_period_comparison_table (now : Timestamp) (df : DataFrame)
  : Run :=
  let df := add_period_column df in
  match period_stats_of df with
  | Raise e => mkRun df [] (Raise e)
  | Ok period_stats =>
      let json := ("period_comparison.json", Json period_stats) in
      match generate_markdown_report now period_stats df with
      | Raise e => mkRun df [json] (Raise e)
      | Ok md =>
          mkRun df [json; ("period_comparison.md", Markdown md)]
            (Ok period_stats)
      end
  end.

(** One record of [change_data] in [create_period_change_graph]. *)
Record ChangeRecord : Type := mkChangeRecord {
  record_city : string;
  record_period : string;
  record_metric : string;
  record_change_pct : float
}.

Definition graph_metrics : list string :=
  ["establishments"; "employees"; "sales"].

(** Lines 273-282 and 286-295: the values are numpy scalars, so the
    division is computed whatever the start value. *)
Definition change_record (c period : string) (start_data end_data : DataFrame)
    (metric : string) : result (list ChangeRecord) :=
  val_start ← iloc0 metric start_data;
  val_end ← iloc0 metric end_data;
  mret [mkChangeRecord c period metric
          (((val_end - val_start) / val_start) * 100)].

(** Lines 271-282 and 284-295. *)
Definition period_records (c period : string) (start_data end_data : DataFrame)
  : result (list ChangeRecord) :=
  if bool_decide (0 < length start_data ∧ 0 < length end_data) then
    Py.list_for graph_metrics (change_record c period start_data end_data)
  else mret [].

(** Lines 262-295, the body of the loop over the cities. *)
Definition city_records (df : DataFrame) (c : string)
  : result (list ChangeRecord) :=
  let city_data := sort_values_year (of_city c df) in
  if bool_decide (2 ≤ length city_data) then
    let data_2007 := of_year 2007 city_data in
    let data_2012 := of_year 2012 city_data in
    let data_2021 := of_year 2021 city_data in
    first_period ← period_records c "2007-2012" data_2007 data_2012;
    second_period ← period_records c "2012-2021" data_2012 data_2021;
    mret (first_period ++ second_period)
  else mret [].

(** [change_data] of [create_period_change_graph(df, figures_dir)]. *)
Definition change_data_of (df : DataFrame) : result (list ChangeRecord) :=
  Py.list_for (cities df) (city_records df).

End Analysis.

(** ** Library functions

    The numeric routines of numpy, scipy and pandas that the scripts call.
    They are not code of the scripts: the definitions below take them as an
    interface. *)

Class NumericLibrary : Type := {
  (** [x ** y] on numpy floats *)
  np_power : float -> float -> float;
  (** [round(x, ndigits)] on a numpy float *)
  np_round : float -> Z -> float;
  (** [scipy.stats.linregress(x, y)]: the slope and [r_value] *)
  linregress : list float -> list float -> float * float;
  (** [Series.mean()] *)
  series_mean : list float -> float;
  (** [Series.describe()]: count, mean, std, min, quartiles, max *)
  describe : list float -> list (string * float)
}.

(** The float of a Python integer (exact below 2^53). *)
Definition float_of_nat (n : nat) : float :=
  PrimFloat.of_uint63 (Uint63.of_Z (Z.of_nat n)).

(** [start > 0 and end > 0] on floats: false when either is NaN. *)
Definition both_positive (first_value last_value : float) : bool :=
  (0 <? first_value)%float && (0 <? last_value)%float.

(** ** thesis_key_findings.py and comprehensive_analysis.py *)

Section MultiPoint.

Context `{NumericLibrary}.

(** [((last / first) ** (1/years) - 1) * 100], the expression of
    thesis_key_findings.py lines 45 and 49 and comprehensive_analysis.py
    line 167. *)
Definition cagr_percent (first_value last_value : float) (years : nat)
  : float :=
  ((np_power (last_value / first_value) (1 / float_of_nat years) - 1) * 100)%float.

(** [values[0]] and [values[-1]] of a numpy array. *)
Definition ends (values : list float) : result (float * float) :=
  match head values, last values with
  | Some first_value, Some last_value => Ok (first_value, last_value)
  | _, _ => Raise IndexError
  end.

End MultiPoint.

Module ThesisKeyFindings.
Section WithLibrary.

Context `{NumericLibrary}.

(** The entry of a city in [city_growth] (lines 53-61). *)
Record CityGrowth : Type := mkCityGrowth {
  establishments_cagr : float;
  employees_cagr : float;
  initial_establishments : float;
  final_establishments : float;
  initial_employees : float;
  final_employees : float;
  data_points : nat
}.

(** Lines 36-61, the body of the loop over the cities: the entry stored
    under the city, if any. *)
Definition city_growth_entry (df : DataFrame) (c : string)
  : result (option CityGrowth) :=
  let city_data := sort_values_year (of_city c df) in
  if bool_decide (3 ≤ length city_data) then
    establishments ← values "establishments" city_data;
    employees ← values "employees" city_data;
    let years := (length establishments - 1)%nat in
    '(est_first, est_last) ← ends establishments;
    if both_positive est_first est_last then
      let est_cagr := cagr_percent est_first est_last years in
      '(emp_first, emp_last) ← ends employees;
      let emp_cagr :=
        if both_positive emp_first emp_last
        then np_round (cagr_percent emp_first emp_last years) 2
        else 0%float in
      mret (Some (mkCityGrowth (np_round est_cagr 2) emp_cagr
                    est_first est_last emp_first emp_last
                    (length city_data)))
    else mret None
  else mret None.

(** [city_growth] of [identify_top_growth_cities] (lines 34-61). *)
Definition city_growth_of (df : DataFrame) : result (gmap string CityGrowth) :=
  Py.dict_for (cities df) (city_growth_entry df).

End WithLibrary.
End ThesisKeyFindings.

Module ComprehensiveAnalysis.
Section WithLibrary.

Context `{NumericLibrary}.

Definition trend_columns : list string := ["establishments"; "employees"].

(** [np.arange(n)] *)
Definition arange (n : nat) : list float := map float_of_nat (seq 0 n).

(** Lines 161-174, the body of the loop over the columns: the values
    stored under the keys [<col>_cagr], [<col>_trend_slope] and
    [<col>_trend_r2]. *)
Definition column_trends (city_data : DataFrame)
    (city_trends : gmap string float) (col : string)
  : result (gmap string float) :=
  vals ← values col city_data;
  if bool_decide (1 < length vals) then
    let years := (length vals - 1)%nat in
    '(first_value, last_value) ← ends vals;
    let city_trends :=
      if both_positive first_value last_value
      then <[col +:+ "_cagr" :=
               np_round (cagr_percent first_value last_value years) 2]>
             city_trends
      else city_trends in
    let regression := linregress (arange (length vals)) vals in
    let slope := fst regression in
    let r_value := snd regression in
    mret (<[col +:+ "_trend_r2" := np_round (np_power r_value 2) 3]>
            (<[col +:+ "_trend_slope" := np_round slope 2]> city_trends))
  else mret city_trends.

(** Lines 156-176, the body of the loop over the cities: the entry stored
    under the city, if any. *)
Definition city_trends_entry (df : DataFrame) (c : string)
  : result (option (gmap string float)) :=
  let city_data := sort_values_year (of_city c df) in
  if bool_decide (3 ≤ length city_data) then
    Some <$> Py.for_each trend_columns (column_trends city_data) ∅
  else mret None.

(** [city_timeseries] of [time_series_analysis] (lines 155-176). *)
Definition city_timeseries_of (df : DataFrame)
  : result (gmap string (gmap string float)) :=
  Py.dict_for (cities df) (city_trends_entry df).

(** Line 305 of [efficiency_analysis]:
    [self.df['employees_per_establishment'] = self.df['employees'] /
    self.df['establishments']], a column division of numpy floats, stored
    in the analyser's table. *)
Definition add_efficiency_column (df : DataFrame) : result DataFrame :=
  employees ← values "employees" df;
  establishments ← values "establishments" df;
  mret (zip_with
          (fun r ratio =>
             mkRow (city r) (year r)
               (<["employees_per_establishment" := ratio]> (metrics r))
               (labels r))
          df (zip_with PrimFloat.div employees establishments)).

End WithLibrary.
End ComprehensiveAnalysis.

(** ** fixed_visualization.py and english_visualization.py *)

Module Visualization.
Section WithLibrary.

Context `{NumericLibrary}.

(** One record of [growth_data]. *)
Record Growth : Type := mkGrowth {
  growth_city : string;
  est_cagr : float;
  emp_cagr : float
}.

(** Line 186 of both scripts: [years = 14  # 2007-2021]. *)
Definition years : nat := 14.

(** Lines 187-188: [(end / start) ** (1/years) - 1]. *)
Definition cagr (start_value end_value : float) : float :=
  (np_power (end_value / start_value) (1 / float_of_nat years) - 1)%float.

(** fixed_visualization.py lines 175-194 and english_visualization.py
    lines 177-194: the record appended for the rows of a city, under the
    name [label]. *)
Definition growth_record (label : string) (city_data : DataFrame)
  : result (list Growth) :=
  let data_2007 := of_year 2007 city_data in
  let data_2021 := of_year 2021 city_data in
  if bool_decide (0 < length data_2007 ∧ 0 < length data_2021) then
    est_2007 ← iloc0 "establishments" data_2007;
    est_2021 ← iloc0 "establishments" data_2021;
    emp_2007 ← iloc0 "employees" data_2007;
    emp_2021 ← iloc0 "employees" data_2021;
    let est_cagr := cagr est_2007 est_2021 in
    let emp_cagr := cagr emp_2007 emp_2021 in
    mret [mkGrowth label (est_cagr * 100) (emp_cagr * 100)]
  else mret [].

(** [growth_data] of [create_growth_comparison] (fixed_visualization.py
    lines 169-194). *)
Definition growth_data_of (df : DataFrame) : result (list Growth) :=
  Py.list_for (cities df) (fun c => growth_record c (of_city c df)).

(** english_visualization.py lines 161-171. *)
Definition city_mapping : list (string * string) :=
  [("越谷市", "Koshigaya"); ("柏市", "Kashiwa"); ("岐阜市", "Gifu");
   ("新潟市", "Niigata"); ("大津市", "Otsu"); ("松山市", "Matsuyama");
   ("佐賀市", "Saga"); ("大分市", "Oita"); ("鹿児島市", "Kagoshima")].

(** [city_mapping.get(c)] *)
Fixpoint mapping_get (mapping : list (string * string)) (c : string)
  : option string :=
  match mapping with
  | [] => None
  | (k, v) :: mapping' =>
      if decide (k = c) then Some v else mapping_get mapping' c
  end.

(** [growth_data] of [create_growth_rate_comparison]
    (english_visualization.py lines 158-194): the cities of the mapping
    only, under their English names. *)
Definition english_growth_data_of (df : DataFrame) : result (list Growth) :=
  Py.list_for (cities df)
    (fun c =>
       match mapping_get city_mapping c with
       | Some english => growth_record english (of_city c df)
       | None => mret []
       end).

End WithLibrary.
End Visualization.

(** ** create_presentation_figures.py *)

Module PresentationFigures.
Section WithLibrary.

Context `{NumericLibrary}.

(** The group keys of [df.groupby('year')]: the distinct years in
    increasing order. *)
Definition year_keys (df : DataFrame) : list Z :=
  merge_sort Z.le (unique (map year df)).

(** Lines 93-98 of [create_time_series_chart]: [yearly_avg], one line
    per year with the means of the two columns. *)
Definition yearly_avg (df : DataFrame) : result (list (Z * float * float)) :=
  let df_filtered := not_of_year 2014 df in
  mapM (fun y =>
          let group := of_year y df_filtered in
          establishments ← values "establishments" group;
          employees ← values "employees" group;
          mret (y, series_mean establishments, series_mean employees))
       (year_keys df_filtered).

(** Lines 133-134 of [create_regional_comparison]: the rows handed to the
    box plots (a null region is an absent label). *)
Definition regional_rows (df : DataFrame) : DataFrame :=
  let df_filtered := not_of_year 2014 df in
  filter (fun r => is_Some (labels r !! "region")) df_filtered.

(** Lines 215-217 of [create_statistics_summary]: [stats], the summary of
    the two columns. *)
Definition statistics_summary (df : DataFrame)
  : result (list (string * float) * list (string * float)) :=
  let df_filtered := not_of_year 2014 df in
  establishments ← values "establishments" df_filtered;
  employees ← values "employees" df_filtered;
  mret (describe establishments, describe employees).

End WithLibrary.
End PresentationFigures.

(** ** An executable stand-in for the library

    Simple float routines in place of numpy's, to run the definitions on
    sample tables. They are exact where the result is a float (the square
    root of 4, whole powers of 2, the rounding of 100) and approximate
    elsewhere. *)

Module Sample.

Local Open Scope float_scope.

(** [x ** n] by repeated multiplication, while [1 <= n]. *)
Fixpoint power_whole (fuel : nat) (x n acc : float) : float * float :=
  match fuel with
  | O => (acc, n)
  | S fuel' =>
      if 1 <=? n then power_whole fuel' x (n - 1) (acc * x) else (acc, n)
  end.

(** [x ** f] for [0 <= f < 1], from the binary digits of [f] and
    repeated square roots. *)
Fixpoint power_fraction (digits : nat) (root f acc : float) : float :=
  match digits with
  | O => acc
  | S digits' =>
      let root := sqrt root in
      let f := f * 2 in
      if 1 <=? f then power_fraction digits' root (f - 1) (acc * root)
      else power_fraction digits' root f acc
  end.

Definition power (x y : float) : float :=
  let '(whole, f) := power_whole 4096 x (abs y) 1 in
  let p := power_fraction 60 x f whole in
  if y <? 0 then 1 / p else p.

(** Round to the nearest integer, ties to even (exact below 2^52). *)
Definition rint (x : float) : float :=
  let big := 4503599627370496 in
  if abs x <? big then
    if x <? 0 then (x - big) + big else (x + big) - big
  else x.

Definition round (x : float) (ndigits : Z) : float :=
  let scale := fst (power_whole 32 10 (float_of_nat (Z.to_nat ndigits)) 1) in
  rint (x * scale) / scale.

Definition sum (l : list float) : float := fold_left PrimFloat.add l 0.

(** The mean of the non-null values. *)
Definition mean (l : list float) : float :=
  let present := List.filter (fun x => x =? x) l in
  sum present / float_of_nat (length present).

(** Least squares: the slope and the correlation coefficient. *)
Definition regress (x y : list float) : float * float :=
  let mx := mean x in
  let my := mean y in
  let sxy := sum (zip_with (fun a b => (a - mx) * (b - my)) x y) in
  let sxx := sum (List.map (fun a => (a - mx) * (a - mx)) x) in
  let syy := sum (List.map (fun b => (b - my) * (b - my)) y) in
  (sxy / sxx, sxy / sqrt (sxx * syy)).

Definition summary (l : list float) : list (string * float) :=
  let present := List.filter (fun x => x =? x) l in
  [("count", float_of_nat (length present)); ("mean", mean l);
   ("min", fold_left (fun a b => if b <? a then b else a) present infinity);
   ("max", fold_left (fun a b => if a <? b then b else a) present neg_infinity)].

#[export] Instance library : NumericLibrary := {
  np_power := power;
  np_round := round;
  linregress := regress;
  series_mean := mean;
  describe := summary
}.

(** A row with the four numeric columns of the retail table. *)
Definition observation (c : string) (y : Z)
    (establishments employees sales salesArea : float) : Row :=
  mkRow c y
    (<["establishments" := establishments]>
       (<["employees" := employees]>
          (<["sales" := sales]> (<["salesArea" := salesArea]> ∅))))
    ∅.

(** City A: three observations over the fourteen years 2007-2021. *)
Definition three_points : DataFrame :=
  [observation "A" 2007 100 10 50 1;
   observation "A" 2012 120 20 60 2;
   observation "A" 2021 400 5 70 3].

(** City B: no sales in 2007. *)
Definition zero_start : DataFrame :=
  [observation "B" 2007 10 10 0 1;
   observation "B" 2012 20 20 200 2].

(** City A with no employees in the first year. *)
Definition zero_employees : DataFrame :=
  [observation "A" 2007 100 0 50 1;
   observation "A" 2012 120 20 60 2;
   observation "A" 2021 400 5 70 3].

(** City A with a null number of establishments in 2007. *)
Definition null_start : DataFrame :=
  [observation "A" 2007 nan 10 50 1;
   observation "A" 2012 150 20 60 2].

(** City C has no row for 2012; city A has all three years. *)
Definition missing_year : DataFrame :=
  [observation "C" 2007 100 10 50 1;
   observation "C" 2021 150 20 60 2;
   observation "A" 2007 100 10 50 1;
   observation "A" 2012 150 20 60 2;
   observation "A" 2021 200 30 70 3].

(** City A with a null number of establishments in the first year. *)
Definition null_first : DataFrame :=
  [observation "A" 2007 nan 10 50 1;
   observation "A" 2012 120 20 60 2;
   observation "A" 2021 400 5 70 3].

(** City E: observations for 2007 and 2021 only. *)
Definition two_points : DataFrame :=
  [observation "E" 2007 100 50 1 1;
   observation "E" 2021 150 60 2 2].

(** A row with its region. *)
Definition in_region (region : string) (r : Row) : Row :=
  mkRow (city r) (year r) (metrics r) (<["region" := region]> (labels r)).

(** Two cities in 2007 and 2021, without and with a row of 2014. *)
Definition without_2014 : DataFrame :=
  [in_region "Kanto" (observation "A" 2007 100 10 50 1);
   in_region "Kyushu" (observation "B" 2007 300 30 50 1);
   in_region "Kanto" (observation "A" 2021 400 5 70 3)].

Definition with_2014 : DataFrame :=
  [in_region "Kanto" (observation "A" 2007 100 10 50 1);
   in_region "Kyushu" (observation "B" 2007 300 30 50 1);
   in_region "Kanto" (observation "A" 2014 9000 900 60 2);
   in_region "Kanto" (observation "A" 2021 400 5 70 3)].

Definition first_run : Analysis.Timestamp :=
  Analysis.mkTimestamp 2024 1 15 0.

Definition second_run : Analysis.Timestamp :=
  Analysis.mkTimestamp 2025 6 30 1000.

End Sample.

(** ** Predicates of the statements *)

Module Import Predicates.

(** Rows whose four table metrics are all present and not zero. *)
Definition comparable (r : Row) : Prop :=
  forall metric, metric ∈ Analysis.table_metrics ->
    exists v, metrics r !! metric = Some v /\ (v =? 0)%float = false.

(** Tables in which every row has a cell (possibly null) in each of the
    given numeric columns. *)
Definition has_columns (columns : list string) (df : DataFrame) : Prop :=
  forall r column, r ∈ df -> column ∈ columns ->
    is_Some (metrics r !! column).

Section WithLibrary.

Context `{NumericLibrary}.

(** What one pass of the loop over the columns of
    [ComprehensiveAnalysis.column_trends] stores for a column of at least
    two values. *)
Definition stored_trends (col : string) (vals : list float)
    (first_value last_value : float) (city_trends : gmap string float)
  : gmap string float :=
  <[col +:+ "_trend_r2" :=
      np_round (np_power (snd (linregress (ComprehensiveAnalysis.arange (length vals)) vals)) 2) 3]>
    (<[col +:+ "_trend_slope" :=
         np_round (fst (linregress (ComprehensiveAnalysis.arange (length vals)) vals)) 2]>
       (if both_positive first_value last_value
        then <[col +:+ "_cagr" :=
                 np_round
                   (cagr_percent first_value last_value (length vals - 1)) 2]>
               city_trends
        else city_trends)).

End WithLibrary.

End Predicates.

(** ** comprehensive_analysis.py: save_results *)

Module SaveResults.

(** The values of the result dictionary: what [make_json_safe] (lines
    428-442) tells apart. A dict is the list of its items, in order. *)
#[local] Unset Elimination Schemes.
Inductive Object : Type :=
| PyNone
| PyBool (b : bool)
| PyInt (z : Z)
| PyFloat (f : float)
| PyStr (s : string)
| PyList (elements : list Object)
| PyDict (items : list (string * Object)).
#[local] Set Elimination Schemes.

(** Lines 428-442. *)
Fixpoint make_json_safe (obj : Object) : Object :=
  match obj with
  | PyDict items =>
      PyDict (map (fun kv => (fst kv, make_json_safe (snd kv))) items)
  | PyList elements => PyList (map make_json_safe elements)
  | PyBool b => PyBool b
  | PyInt z => PyInt z
  | PyFloat f => if PrimFloat.is_nan f then PyNone else PyFloat f
  | PyNone => PyNone
  | PyStr s => PyStr s
  end.

(** Whether a NaN occurs somewhere in a value. *)
Fixpoint has_nan (obj : Object) : bool :=
  match obj with
  | PyDict items => existsb (fun kv => has_nan (snd kv)) items
  | PyList elements => existsb has_nan elements
  | PyFloat f => PrimFloat.is_nan f
  | _ => false
  end.

(** The keys of the dicts and the lengths of the lists of a value, with
    the scalars forgotten. *)
Fixpoint shape (obj : Object) : Object :=
  match obj with
  | PyDict items => PyDict (map (fun kv => (fst kv, shape (snd kv))) items)
  | PyList elements => PyList (map shape elements)
  | _ => PyNone
  end.

(** The value at a place of a value: the place is given by the positions
    taken, in turn, in the lists and among the items of the dicts on the
    way to it. *)
Fixpoint at_path (path : list nat) (obj : Object) : option Object :=
  match path with
  | [] => Some obj
  | i :: path' =>
      match obj with
      | PyList elements => element ← elements !! i; at_path path' element
      | PyDict items => item ← items !! i; at_path path' (snd item)
      | _ => None
      end
  end.




End SaveResults.

(** ** fix_cagr_graph.py and display_results.py

    Both scripts read [city_timeseries] back from the JSON file that
    [save_results] writes. A rate that was NaN is null in the file, and NaN
    again in the tables built from it: the map below holds it as NaN. *)

(** [DataFrame.sort_values('emp_cagr', ascending=True)] of pandas, on a
    frame of growth records: the rows by increasing [emp_cagr]. *)
Class FrameLibrary : Type := {
  sort_values_emp_cagr : list Visualization.Growth -> list Visualization.Growth
}.

Module FixCagrGraph.

(** [d[key]] *)
Definition getitem (d : gmap string float) (key : string) : result float :=
  match d !! key with
  | Some v => Ok v
  | None => Raise (KeyError key)
  end.

(** Lines 39-46, the body of the loop over the items of [city_mapping]
    (lines 27-37, the nine cities of english_visualization.py). *)
Definition growth_record (city_timeseries : gmap string (gmap string float))
    (growth_data : list Visualization.Growth) (item : string * string)
  : result (list Visualization.Growth) :=
  let '(city_jp, city_en) := item in
  match city_timeseries !! city_jp with
  | Some data =>
      est_cagr ← getitem data "establishments_cagr";
      emp_cagr ← getitem data "employees_cagr";
      mret (growth_data ++ [Visualization.mkGrowth city_en est_cagr emp_cagr])
  | None => mret growth_data
  end.

(** [growth_data] of [create_corrected_cagr_graph] (lines 26-46). *)
Definition growth_data_of (city_timeseries : gmap string (gmap string float))
  : result (list Visualization.Growth) :=
  Py.for_each Visualization.city_mapping (growth_record city_timeseries) [].

(** Lines 48-49: [growth_df = pd.DataFrame(growth_data)] and
    [growth_df.sort_values('emp_cagr', ascending=True)]. The frame built
    from an empty list has no column, and sorting it raises KeyError. *)
Definition sorted_frame `{FrameLibrary} (growth_data : list Visualization.Growth)
  : result (list Visualization.Growth) :=
  match growth_data with
  | [] => Raise (KeyError "emp_cagr")
  | _ :: _ => Ok (sort_values_emp_cagr growth_data)
  end.

(** [growth_df] of [create_corrected_cagr_graph] after line 49: the frame
    that is printed, drawn and returned. *)
Definition growth_df_of `{FrameLibrary}
    (city_timeseries : gmap string (gmap string float))
  : result (list Visualization.Growth) :=
  growth_data ← growth_data_of city_timeseries;
  sorted_frame growth_data.

End FixCagrGraph.

Module DisplayResults.

(** [d.get(key, 0)] *)
Definition get_or_zero (d : gmap string float) (key : string) : float :=
  match d !! key with
  | Some v => v
  | None => 0%float
  end.

(** [cagr_data] of [display_analysis_results] (lines 66-72), by city: the
    pair of [est_cagr] and [emp_cagr]. The order of the records is not
    modelled. *)
Definition cagr_data (city_timeseries : gmap string (gmap string float))
  : gmap string (float * float) :=
  (fun data => (get_or_zero data "establishments_cagr",
                get_or_zero data "employees_cagr")) <$> city_timeseries.

(** Lines 119-124: the three correlations that are printed. *)
Definition printed_correlations (corr_data : gmap string float)
  : result (float * float * float) :=
  est_emp ← FixCagrGraph.getitem corr_data "establishments_vs_employees";
  est_sales ← FixCagrGraph.getitem corr_data "establishments_vs_sales";
  emp_sales ← FixCagrGraph.getitem corr_data "employees_vs_sales";
  mret (est_emp, est_sales, emp_sales).

End DisplayResults.

(** ** comprehensive_analysis.py: correlation_analysis *)

(** [DataFrame.corr()]: the correlation of two columns. *)
Class CorrelationLibrary : Type := {
  series_corr : list float -> list float -> float
}.

Module Correlation.
Section WithLibrary.

Context `{NumericLibrary} `{CorrelationLibrary}.

Definition numeric_cols : list string :=
  ["establishments"; "employees"; "sales"; "salesArea"].

(** [col in self.df.columns]: every row has the column. *)
Definition in_columns (df : DataFrame) (col : string) : Prop :=
  Forall (fun r => is_Some (metrics r !! col)) df.

(** [df[col]] for a column of the table, null cells included. *)
Definition column (df : DataFrame) (col : string) : list float :=
  map (fun r => default nan (metrics r !! col)) df.

(** Lines 287-288: the pairs [(i, j)] with [i < j], in the order of the
    two loops. *)
Fixpoint pairs (cols : list string) : list (string * string) :=
  match cols with
  | [] => []
  | a :: cols' => map (pair a) cols' ++ pairs cols'
  end.

(** Lines 289-292, the body of the inner loop. *)
Definition strong_pair (df : DataFrame) (strong : gmap string float)
    (ab : string * string) : gmap string float :=
  let corr_val := series_corr (column df (fst ab)) (column df (snd ab)) in
  if (0x1.6666666666666p-1 <? abs corr_val)%float
  then <[fst ab +:+ "_vs_" +:+ snd ab := np_round corr_val 3]> strong
  else strong.

(** [results['strong_correlations']] of [correlation_analysis] (lines
    272-292); nothing when fewer than two columns are there. *)
Definition strong_correlations (df : DataFrame) : option (gmap string float) :=
  let available_cols := filter (in_columns df) numeric_cols in
  if bool_decide (length available_cols < 2) then None
  else Some (fold_left (strong_pair df) (pairs available_cols) ∅).

End WithLibrary.
End Correlation.

(** ** english_visualization.py and fixed_visualization.py: the three
    reference years *)

Module ThreePoint.

(** [df[df['year'].isin([2007, 2012, 2021])]] (english_visualization.py
    lines 38 and 118, fixed_visualization.py lines 64 and 133). *)
Definition df_3point (df : DataFrame) : DataFrame :=
  filter (fun r => year r ∈ [2007; 2012; 2021]%Z) df.

End ThreePoint.

(** ** analysis.py: the graphs *)

Module Graphs.

(** One call of [ax.plot]: the label and colour of the line and its
    points. *)
Record Line : Type := mkLine {
  line_label : string;
  line_color : string;
  line_years : list Z;
  line_values : list float
}.

(** Line 190. *)
Definition colors : list string := ["#1f77b4"; "#ff7f0e"].

(** Lines 195-199 and 228-232, the body of the loop over the cities: the
    arguments of [ax.plot], evaluated in order. *)
Definition city_line (df : DataFrame) (metric : string) (j : nat) (c : string)
  : result Line :=
  let city_data := sort_values_year (of_city c df) in
  vals ← values metric city_data;
  color ← match colors !! j with
           | Some color => Ok color
           | None => Raise IndexError
           end;
  mret (mkLine c color (map year city_data) vals).

(** Lines 192-199 and 225-232, the body of the loop over the metrics. *)
Definition metric_lines (df : DataFrame) (metric : string)
  : result (list Line) :=
  mapM (fun jc => city_line df metric (fst jc) (snd jc))
       (imap pair (cities df)).

Definition efficiency_metrics : list string :=
  ["salesPerEmployee"; "salesPerEstablishment";
   "employeesPerEstablishment"; "salesAreaPerEmployee"].

(** [change_df[change_df['metric'] == metric]] (line 310): the table built
    from an empty list of records has no column [metric]. *)
Definition of_metric (metric : string) (change_data : list Analysis.ChangeRecord)
  : result (list Analysis.ChangeRecord) :=
  match change_data with
  | [] => Raise (KeyError "metric")
  | _ => Ok (filter (fun r => Analysis.record_metric r = metric) change_data)
  end.

(** [.pivot(index='city', columns='period', values='change_pct')] (lines
    310-312): the table by city and period; pandas raises ValueError when
    a pair of city and period occurs twice. *)
Definition pivot (rows : list Analysis.ChangeRecord)
  : result (gmap (string * string) float) :=
  if bool_decide
       (NoDup (map (fun r => (Analysis.record_city r, Analysis.record_period r))
                 rows))
  then Ok (list_to_map
             (map (fun r => ((Analysis.record_city r, Analysis.record_period r),
                             Analysis.record_change_pct r)) rows))
  else Raise ValueError.

(** Lines 297-312 of [create_period_change_graph]: the three pivoted
    tables that are plotted. *)
Definition pivot_tables (df : DataFrame)
  : result (list (gmap (string * string) float)) :=
  change_data ← Analysis.change_data_of df;
  mapM (fun metric => rows ← of_metric metric change_data; pivot rows)
       Analysis.graph_metrics.

(** [create_comprehensive_graphs(df)] (lines 176-250), up to the call of
    [create_city_comparison_graph]: the lines of the two figures and the
    tables of the third. *)
Definition create_comprehensive_graphs (df : DataFrame)
  : result (list (list Line) * list (list Line)
            * list (gmap (string * string) float)) :=
  time_series ← mapM (metric_lines df) Analysis.table_metrics;
  efficiency ← mapM (metric_lines df) efficiency_metrics;
  tables ← pivot_tables df;
  mret (time_series, efficiency, tables).

End Graphs.

(** ** create_presentation_figures.py: the growth chart *)

Module CityGrowthChart.

(** One record of [growth_data]. *)
Record Growth : Type := mkGrowth {
  growth_city : string;
  establishments_growth : float;
  employees_growth : float
}.

(** The order of Python strings. *)
Definition string_le (a b : string) : Prop := String.leb a b = true.

#[global] Instance string_le_dec : RelDecision string_le.
Proof. intros a b. unfold string_le. apply _. Defined.

(** The group keys of [df.groupby('cityName')]: the distinct cities in
    increasing order. *)
Definition city_keys (df : DataFrame) : list string :=
  merge_sort string_le (cities df).

(** Lines 163-166: the cities with a row of 2007 and a row of 2021. *)
Definition cities_with_both (df : DataFrame) : list string :=
  filter (fun c => (2007%Z ∈ map year (of_city c df)) ∧
                   (2021%Z ∈ map year (of_city c df)))
         (city_keys df).

(** [frame.iloc[0]] *)
Definition first_row (df : DataFrame) : result Row :=
  match df with
  | [] => Raise IndexError
  | r :: _ => Ok r
  end.

(** Lines 169-181, the body of the loop over [cities_with_both]. *)
Definition growth_record (df : DataFrame) (c : string) : result Growth :=
  let city_data := sort_values_year (of_city c df) in
  data_2007 ← first_row (of_year 2007 city_data);
  data_2021 ← first_row (of_year 2021 city_data);
  est_2021 ← cell "establishments" data_2021;
  est_2007 ← cell "establishments" data_2007;
  emp_2021 ← cell "employees" data_2021;
  emp_2007 ← cell "employees" data_2007;
  mret (mkGrowth c (((est_2021 / est_2007) - 1) * 100)
          (((emp_2021 / emp_2007) - 1) * 100)).

(** [growth_data] of [create_city_growth_chart] (lines 162-181). *)
Definition growth_data_of (df : DataFrame) : result (list Growth) :=
  mapM (growth_record df) (cities_with_both df).

End CityGrowthChart.

(** ** Predicates of the statements on the scripts that read results *)

Module Import ReadPredicates.

(** Every city of the mapping that has an entry in [city_timeseries] has
    both rates in it. *)
Definition both_rates_stored (ts : gmap string (gmap string float)) : Prop :=
  forall item data, item ∈ Visualization.city_mapping ->
    ts !! item.1 = Some data ->
    is_Some (data !! "establishments_cagr") /\
    is_Some (data !! "employees_cagr").

(** The record of an item of the mapping, when its city has an entry with
    both rates. *)
Definition mapped_record (ts : gmap string (gmap string float))
    (item : string * string) : option Visualization.Growth :=
  data ← ts !! item.1;
  est ← data !! "establishments_cagr";
  emp ← data !! "employees_cagr";
  Some (Visualization.mkGrowth item.2 est emp).

End ReadPredicates.

(** ** thesis_key_findings.py: the rankings and the first finding *)

Module ThesisInsights.
Section WithLibrary.

Context `{NumericLibrary}.
Import ThesisKeyFindings.

(** [city_growth.items()]: the entries in the order in which the loop
    over the cities stored them. *)
Definition items (df : DataFrame) (city_growth : gmap string CityGrowth)
  : list (string * CityGrowth) :=
  omap (fun c => pair c <$> city_growth !! c) (cities df).

(** [sorted(..., key=..., reverse=True)]: the items by decreasing key,
    those of the same key in their order in the list. The keys are
    compared with [<] alone; the order of keys that are numbers determines
    the result. *)
Fixpoint insert_desc (key : CityGrowth -> float) (x : string * CityGrowth)
    (l : list (string * CityGrowth)) : list (string * CityGrowth) :=
  match l with
  | [] => [x]
  | y :: l' =>
      if (key (snd x) <? key (snd y))%float then y :: insert_desc key x l'
      else x :: l
  end.

Fixpoint sorted_desc (key : CityGrowth -> float)
    (l : list (string * CityGrowth)) : list (string * CityGrowth) :=
  match l with
  | [] => []
  | x :: l' => insert_desc key x (sorted_desc key l')
  end.

(** Lines 64-65: the first three of each ranking. *)
Definition top_establishment_growth (df : DataFrame)
    (city_growth : gmap string CityGrowth) : list (string * CityGrowth) :=
  take 3 (sorted_desc establishments_cagr (items df city_growth)).

Definition top_employee_growth (df : DataFrame)
    (city_growth : gmap string CityGrowth) : list (string * CityGrowth) :=
  take 3 (sorted_desc employees_cagr (items df city_growth)).

(** Lines 222-223 of [generate_thesis_insights]:
    [top_establishment_growth[0]], and the city and the rate that the
    first finding names. *)
Definition top_growth_city (top : list (string * CityGrowth))
  : result (string * float) :=
  match top with
  | [] => Raise IndexError
  | (c, data) :: _ => Ok (c, establishments_cagr data)
  end.

(** [identify_top_growth_cities] followed by the first finding of
    [generate_thesis_insights]. *)
Definition first_finding (df : DataFrame) : result (string * float) :=
  city_growth ← city_growth_of df;
  top_growth_city (top_establishment_growth df city_growth).

End WithLibrary.
End ThesisInsights.

(** ** Predicates of the statements on the graphs *)

Module Import GraphPredicates.

(** The city, period and metric of a record of [change_data]. *)
Definition record_key (r : Analysis.ChangeRecord) : string * string * string :=
  (Analysis.record_city r, Analysis.record_period r, Analysis.record_metric r).

End GraphPredicates.

(** ** Predicates of the statements on the correlations *)

Module Import CorrelationPredicates.
Section WithLibrary.

Context `{CorrelationLibrary}.

(** Two columns of the table whose correlation is above 0.7 in absolute
    value. *)
Definition strongly_correlated (df : DataFrame) (a b : string) : Prop :=
  Correlation.in_columns df a /\ Correlation.in_columns df b /\
  (0x1.6666666666666p-1
   <? abs (series_corr (Correlation.column df a) (Correlation.column df b)))%float
  = true.

End WithLibrary.
End CorrelationPredicates.

(** ** More sample tables *)

Module Examples.

(** Kashiwa with three observations and no employees in the first year. *)
Definition kashiwa_no_employees : DataFrame :=
  [Sample.observation "柏市" 2007 100 0 50 1;
   Sample.observation "柏市" 2012 120 20 60 2;
   Sample.observation "柏市" 2021 400 5 70 3].

(** Kashiwa and Gifu with rows for 2007 and 2021, and a third city, not
    in the mapping, with a row for 2007 only. *)
Definition three_cities : DataFrame :=
  [Sample.observation "柏市" 2007 100 10 50 1;
   Sample.observation "岐阜市" 2007 200 20 60 2;
   Sample.observation "Tokyo" 2007 300 30 70 3;
   Sample.observation "柏市" 2021 150 20 60 2;
   Sample.observation "岐阜市" 2021 100 40 80 4].

(** The correlation of two columns, from the regression of the sample
    library. *)
#[export] Instance correlation : CorrelationLibrary := {
  series_corr x y := snd (Sample.regress x y)
}.

(** A city whose three main columns grow together. *)
Definition growing_together : DataFrame :=
  [Sample.observation "A" 2007 100 10 50 3;
   Sample.observation "A" 2012 200 20 60 1;
   Sample.observation "A" 2021 300 30 70 2].

(** Two cities with three observations each, and a third with two. *)
Definition two_growing : DataFrame :=
  [Sample.observation "A" 2007 100 10 50 1;
   Sample.observation "B" 2007 100 20 60 2;
   Sample.observation "A" 2012 120 20 60 2;
   Sample.observation "B" 2012 200 30 60 2;
   Sample.observation "C" 2012 200 30 60 2;
   Sample.observation "A" 2021 150 30 70 3;
   Sample.observation "B" 2021 400 40 70 3;
   Sample.observation "C" 2021 900 40 70 3].

(** The sort of a frame by [emp_cagr]: increasing, null rates last, rows
    of the same rate in their order in the frame. *)
Fixpoint insert_by_emp_cagr (g : Visualization.Growth)
    (l : list Visualization.Growth) : list Visualization.Growth :=
  match l with
  | [] => [g]
  | g' :: l' =>
      if ((Visualization.emp_cagr g <=? Visualization.emp_cagr g')%float
          || PrimFloat.is_nan (Visualization.emp_cagr g'))%bool
      then g :: l
      else g' :: insert_by_emp_cagr g l'
  end.

#[export] Instance frame : FrameLibrary := {
  sort_values_emp_cagr := foldr insert_by_emp_cagr []
}.

(** Stored rates of two cities of the mapping, and of a city that is not
    in it and has one rate only. *)
Definition stored_rates : gmap string (gmap string float) :=
  {[ "柏市" := {[ "establishments_cagr" := 2%float;
                  "employees_cagr" := 3%float ]};
     "岐阜市" := {[ "establishments_cagr" := (-1)%float;
                    "employees_cagr" := 1%float ]};
     "Tokyo" := {[ "establishments_cagr" := 5%float ]} ]}.

(** Stored rates of a city that is not in the mapping only. *)
Definition unmapped_rates : gmap string (gmap string float) :=
  {[ "Tokyo" := {[ "establishments_cagr" := 5%float;
                   "employees_cagr" := 4%float ]} ]}.

End Examples.

(** * Properties *)

(** ** Loops *)

Section Loops.

Context {V : Type}.

Lemma bind_Ok {A B} (c : result A) (k : A -> result B) (b : B) :
  Py.bind c k = Ok b -> exists a, c = Ok a /\ k a = Ok b.
Proof. destruct c as [a|e]; simpl; [eauto | discriminate]. Qed.

Lemma dict_loop_lookup (entry : string -> result (option V)) keys
    (d0 d : gmap string V) :
  Py.for_each keys
    (fun d k =>
       Py.bind (entry k)
         (fun o => Ok (match o with Some v => <[k := v]> d | None => d end)))
    d0 = Ok d ->
  forall k,
    (k ∈ keys ->
     exists o, entry k = Ok o /\
       d !! k = match o with Some v => Some v | None => d0 !! k end) /\
    (k ∉ keys -> d !! k = d0 !! k).
Proof.
  revert d0. induction keys as [|a keys IH]; intros d0 Hd k; simpl in Hd.
  - injection Hd as <-. split; [intros Hk; inversion Hk | done].
  - apply bind_Ok in Hd as (d1 & H1 & Hd).
    apply bind_Ok in H1 as (o & Ho & H1). injection H1 as <-.
    destruct (IH _ Hd k) as [Hin Hout]. split.
    + intros Hk. destruct (decide (k ∈ keys)) as [Hk'|Hk'].
      * destruct (Hin Hk') as (o' & Ho' & Hl). exists o'. split; [done|].
        rewrite Hl. destruct o' as [v'|]; [done|].
        destruct (decide (a = k)) as [->|Hne].
        -- rewrite Ho in Ho'. injection Ho' as ->. done.
        -- destruct o; [by rewrite lookup_insert_ne | done].
      * apply elem_of_cons in Hk as [->|Hk]; [|done].
        exists o. split; [done|]. rewrite (Hout Hk').
        destruct o; [by rewrite lookup_insert_eq | done].
    + intros Hk. apply not_elem_of_cons in Hk as [Hne Hk].
      rewrite (Hout Hk). destruct o; [by rewrite lookup_insert_ne | done].
Qed.

Lemma dict_for_lookup (entry : string -> result (option V)) keys d :
  Py.dict_for keys entry = Ok d ->
  forall k,
    (k ∈ keys -> entry k = Ok (d !! k)) /\ (k ∉ keys -> d !! k = None).
Proof.
  intros Hd k. destruct (dict_loop_lookup _ _ _ _ Hd k) as [Hin Hout]. split.
  - intros Hk. destruct (Hin Hk) as (o & Ho & Hl). rewrite Ho, Hl.
    by destruct o.
  - intros Hk. by rewrite (Hout Hk).
Qed.

Lemma dict_for_Ok (entry : string -> result (option V)) keys :
  (forall k, k ∈ keys -> Py.is_Ok (entry k)) ->
  exists d, Py.dict_for keys entry = Ok d.
Proof.
  unfold Py.dict_for. generalize (∅ : gmap string V).
  induction keys as [|a keys IH]; intros d0 Hall; simpl; [eauto|].
  destruct (entry a) as [o|e] eqn:Ha.
  - simpl. apply IH. intros k Hk. apply Hall. by right.
  - specialize (Hall a (list_elem_of_here _ _)). rewrite Ha in Hall. done.
Qed.

End Loops.

(** ** Tables *)

Lemma unique_from_spec {A} `{EqDecision A} (seen l : list A) (x : A) :
  x ∈ unique_from seen l <-> x ∈ l /\ x ∉ seen.
Proof.
  revert seen. induction l as [|a l IH]; intros seen; simpl.
  - split; [intros Hx; inversion Hx | intros [Hx _]; inversion Hx].
  - destruct (decide (a ∈ seen)) as [Ha|Ha].
    + rewrite IH, elem_of_cons. split; [tauto|].
      intros [[->|Hx] Hs]; [done | tauto].
    + rewrite !elem_of_cons, IH, not_elem_of_cons.
      split.
      * intros [->|(Hx & Hne & Hs)]; tauto.
      * intros [[->|Hx] Hs]; [tauto|].
        destruct (decide (x = a)) as [->|Hne]; tauto.
Qed.

Lemma unique_spec {A} `{EqDecision A} (l : list A) (x : A) :
  x ∈ unique l <-> x ∈ l.
Proof.
  unfold unique. rewrite unique_from_spec. split; [tauto|].
  intros Hx. split; [done|]. intros Hn. inversion Hn.
Qed.

Lemma cities_spec (df : DataFrame) (c : string) :
  c ∈ cities df <-> exists r, r ∈ df /\ city r = c.
Proof.
  unfold cities. rewrite unique_spec, list_elem_of_fmap. split.
  - intros (r & -> & Hr). eauto.
  - intros (r & Hr & <-). eauto.
Qed.

Lemma mapM_result_lookup {A B} (f : A -> result B) (l : list A) (k : list B) :
  mapM f l = Ok k ->
  length k = length l /\
  forall i x, l !! i = Some x -> exists y, k !! i = Some y /\ f x = Ok y.
Proof.
  revert k. induction l as [|a l IH]; intros k; simpl.
  - intros [= <-]. split; [done|]. intros i x Hi. inversion Hi.
  - destruct (f a) as [b|e] eqn:Ha; [|discriminate]. simpl.
    destruct (mapM f l) as [k'|e] eqn:Hl; [|discriminate]. simpl.
    intros [= <-]. destruct (IH _ eq_refl) as [Hlen Hk]. split; [simpl; lia|].
    intros [|i] x Hi; simpl in *; [injection Hi as <-; eauto | eauto].
Qed.

Lemma mapM_result_Ok {A B} (f : A -> result B) (l : list A) :
  (forall x, x ∈ l -> Py.is_Ok (f x)) -> Py.is_Ok (mapM f l).
Proof.
  induction l as [|a l IH]; intros Hall; simpl; [done|].
  pose proof (Hall a (list_elem_of_here _ _)) as Ha.
  destruct (f a) as [b|e]; [|done]. simpl.
  assert (Hl : Py.is_Ok (mapM f l)) by (apply IH; intros x Hx; apply Hall; by right).
  destruct (mapM f l); [done | done].
Qed.

(** ** analysis.py: the period comparison table *)

Section PeriodTable.

Import Analysis.

Lemma fmap_Some_Ok {A} (c : result A) (o : option A) :
  Some <$> c = Ok o -> exists a, c = Ok a /\ o = Some a.
Proof.
  destruct c as [a|e]; [|discriminate]. intros [= <-]. eauto.
Qed.

(** The entry of a city in [period_stats]. *)
Lemma period_stats_city (df : DataFrame) (stats : PeriodStats) (c : string)
    (cs : CityStats) :
  period_stats_of df = Ok stats -> stats !! c = Some cs ->
  c ∈ cities df /\ Py.dict_for periods (period_change (of_city c df)) = Ok cs.
Proof.
  intros Hs Hc. destruct (dict_for_lookup _ _ _ Hs c) as [Hin Hout].
  destruct (decide (c ∈ cities df)) as [Hk|Hk].
  - split; [done|]. specialize (Hin Hk). rewrite Hc in Hin.
    apply fmap_Some_Ok in Hin as (cs' & Hcs & [= ->]). done.
  - rewrite (Hout Hk) in Hc. discriminate.
Qed.


End PeriodTable.

(** C7: the value returned by [create_period_comparison_table], the JSON
    document it writes and the state it leaves the table in are the same
    at any two clock readings: the computation reads no clock and draws
    no random number; only the Markdown report carries the date. *)
Theorem period_stats_deterministic (now1 now2 : Analysis.Timestamp)
    (df : DataFrame) :
  Analysis.outcome (Analysis.create_period_comparison_table now1 df)
  = Analysis.outcome (Analysis.create_period_comparison_table now2 df) /\
  Analysis.table (Analysis.create_period_comparison_table now1 df)
  = Analysis.table (Analysis.create_period_comparison_table now2 df) /\
  head (Analysis.written (Analysis.create_period_comparison_table now1 df))
  = head (Analysis.written (Analysis.create_period_comparison_table now2 df)).
Proof.
  unfold Analysis.create_period_comparison_table.
  destruct (Analysis.period_stats_of _) as [stats|e]; [|done].
  unfold Analysis.generate_markdown_report.
  destruct (Py.min _) as [y0|e]; [|done].
  destruct (Py.max _) as [y1|e]; done.
Qed.

(** The date of the run does reach the Markdown report. *)
Lemma markdown_report_dated :
  Analysis.written
    (Analysis.create_period_comparison_table Sample.first_run Sample.three_points)
  <> Analysis.written
    (Analysis.create_period_comparison_table Sample.second_run Sample.three_points).
Proof.
  intros Heq.
  apply (f_equal (fun w =>
           match w with
           | [_; (_, Analysis.Markdown md)] => Some (Analysis.analysis_date md)
           | _ => None
           end)) in Heq.
  vm_compute in Heq. discriminate.
Qed.

(** ** The caller's table after the computations *)

(** The call adds the column [period] to the table it is given. *)
Lemma period_column_added :
  Analysis.table
    (Analysis.create_period_comparison_table Sample.first_run Sample.zero_start)
  <> Sample.zero_start /\
  (labels <$> Sample.zero_start !! 0%nat) = Some ∅ /\
  (labels <$> Analysis.table
     (Analysis.create_period_comparison_table Sample.first_run Sample.zero_start)
     !! 0%nat) = Some {["period" := "2007-2012"]}.
Proof.
  split; [|split; vm_compute; reflexivity].
  intros Heq. apply (f_equal (fun t => (fun r => labels r !! "period") <$> t !! 0%nat)) in Heq.
  vm_compute in Heq. discriminate.
Qed.

Lemma table_after_call (now : Analysis.Timestamp) (df : DataFrame) :
  Analysis.table (Analysis.create_period_comparison_table now df)
  = Analysis.add_period_column df.
Proof.
  unfold Analysis.create_period_comparison_table.
  destruct (Analysis.period_stats_of _); [|done].
  destruct (Analysis.generate_markdown_report _ _ _); done.
Qed.

(** C8 (amended): the computations leave every row of the table in place,
    with its city, year, numeric values and text columns as they were, and
    add one derived column to the table: [period] in
    [create_period_comparison_table], [employees_per_establishment] in
    [efficiency_analysis]. *)
Theorem table_rows_kept (now : Analysis.Timestamp) (df : DataFrame) :
  (let df' := Analysis.table (Analysis.create_period_comparison_table now df) in
   length df' = length df /\
   forall i r, df !! i = Some r ->
     exists r', df' !! i = Some r' /\
       city r' = city r /\ year r' = year r /\ metrics r' = metrics r /\
       labels r' !! "period" = Some (Analysis.period_label (year r)) /\
       forall column, column <> "period" ->
         labels r' !! column = labels r !! column) /\
  (forall df', ComprehensiveAnalysis.add_efficiency_column df = Ok df' ->
   length df' = length df /\
   forall i r, df !! i = Some r ->
     exists r' employees establishments, df' !! i = Some r' /\
       city r' = city r /\ year r' = year r /\ labels r' = labels r /\
       metrics r !! "employees" = Some employees /\
       metrics r !! "establishments" = Some establishments /\
       metrics r' !! "employees_per_establishment"
       = Some (employees / establishments)%float /\
       forall column, column <> "employees_per_establishment" ->
         metrics r' !! column = metrics r !! column).
Proof.
  split.
  - simpl. rewrite table_after_call. unfold Analysis.add_period_column.
    split; [by rewrite length_map|].
    intros i r Hi. rewrite list_lookup_fmap, Hi. simpl.
    eexists. split; [reflexivity|]. simpl.
    split; [done|]. split; [done|]. split; [done|].
    split; [by rewrite lookup_insert_eq|].
    intros column Hne. by rewrite lookup_insert_ne.
  - intros df' Hdf'. unfold ComprehensiveAnalysis.add_efficiency_column in Hdf'.
    apply bind_Ok in Hdf' as (emp & Hemp & Hdf').
    apply bind_Ok in Hdf' as (est & Hest & Hdf'). injection Hdf' as <-.
    apply mapM_result_lookup in Hemp as [Hlen1 Hemp].
    apply mapM_result_lookup in Hest as [Hlen2 Hest].
    split.
    + rewrite !length_zip_with. lia.
    + intros i r Hi.
      destruct (Hemp i r Hi) as (x & Hx & Hcx).
      destruct (Hest i r Hi) as (y & Hy & Hcy).
      unfold cell in Hcx, Hcy.
      destruct (metrics r !! "employees") as [x'|] eqn:Hx'; [|discriminate].
      destruct (metrics r !! "establishments") as [y'|] eqn:Hy'; [|discriminate].
      injection Hcx as ->. injection Hcy as ->.
      eexists _, x, y. rewrite !lookup_zip_with, Hi, Hx, Hy. simpl.
      split; [reflexivity|]. simpl.
      split; [done|]. split; [done|]. split; [done|]. split; [done|].
      split; [done|]. split; [by rewrite lookup_insert_eq|].
      intros column Hne. by rewrite lookup_insert_ne.
Qed.

(** ** analysis.py: the entries of the period comparison *)

Section PeriodEntries.

Import Analysis.




Lemma compare_rows_None (sd ed : DataFrame) :
  compare_rows sd ed = Ok None <-> sd = [] \/ ed = [].
Proof.
  unfold compare_rows. case_bool_decide as Hlen.
  - split.
    + intros Hn. apply fmap_Some_Ok in Hn as (pc & _ & Hn). discriminate.
    + destruct Hlen as [H1 H2]. intros [->| ->]; simpl in *; lia.
  - split; [intros _|done].
    destruct sd; [by left|]. destruct ed; [by right|].
    exfalso. apply Hlen. simpl. lia.
Qed.


Lemma period_stats_city_present (df : DataFrame) (stats : PeriodStats)
    (c : string) :
  period_stats_of df = Ok stats -> c ∈ cities df ->
  exists cs, stats !! c = Some cs /\
    Py.dict_for periods (period_change (of_city c df)) = Ok cs.
Proof.
  intros Hs Hc. destruct (dict_for_lookup _ _ _ Hs c) as [Hin _].
  specialize (Hin Hc). unfold city_stats in Hin.
  apply fmap_Some_Ok in Hin as (cs & Hcs & Heq). eauto.
Qed.




End PeriodEntries.




(** ** analysis.py: missing rows *)

Section MissingRows.

Import Analysis.

Lemma fmap_Some_is_Ok {A} (c : result A) :
  Py.is_Ok c -> Py.is_Ok (Some <$> c).
Proof. by destruct c. Qed.

Lemma is_Ok_exists {A} (c : result A) : Py.is_Ok c <-> exists a, c = Ok a.
Proof.
  destruct c as [a|e]; simpl; split.
  - eauto.
  - done.
  - intros [].
  - intros [a Ha]. discriminate.
Qed.

Lemma metric_change_Ok (sd ed : DataFrame) (metric : string) :
  sd <> [] -> ed <> [] -> metric ∈ table_metrics ->
  (forall r, r ∈ sd -> comparable r) -> (forall r, r ∈ ed -> comparable r) ->
  Py.is_Ok (metric_change sd ed metric).
Proof.
  intros Hsd Hed Hm Hs He.
  destruct sd as [|rs sd]; [done|]. destruct ed as [|re ed]; [done|].
  destruct (Hs rs (list_elem_of_here _ _) metric Hm) as (s & Hsv & Hz).
  destruct (He re (list_elem_of_here _ _) metric Hm) as (e & Hev & _).
  unfold metric_change, iloc0, cell. rewrite Hsv, Hev. simpl.
  unfold Py.truediv. rewrite Hz. done.
Qed.

Lemma period_change_Ok (city_data : DataFrame) (p : string) :
  (forall r, r ∈ city_data -> comparable r) ->
  Py.is_Ok (period_change city_data p).
Proof.
  intros Hall. unfold period_change. destruct (period_years p) as [ys ye].
  unfold compare_rows. case_bool_decide as Hlen; [|done].
  apply fmap_Some_is_Ok, is_Ok_exists, dict_for_Ok. intros metric Hm.
  destruct Hlen as [H1 H2].
  apply metric_change_Ok; try done.
  - intros Heq. rewrite Heq in H1. simpl in H1. lia.
  - intros Heq. rewrite Heq in H2. simpl in H2. lia.
  - intros r Hr. apply list_elem_of_filter in Hr as [_ Hr]. auto.
  - intros r Hr. apply list_elem_of_filter in Hr as [_ Hr]. auto.
Qed.

Lemma period_stats_Ok (df : DataFrame) :
  (forall r, r ∈ df -> comparable r) -> Py.is_Ok (period_stats_of df).
Proof.
  intros Hall. apply is_Ok_exists, dict_for_Ok. intros c Hc.
  apply fmap_Some_is_Ok, is_Ok_exists, dict_for_Ok. intros p Hp.
  apply period_change_Ok. intros r Hr.
  apply list_elem_of_filter in Hr as [_ Hr]. auto.
Qed.

Lemma period_absent_iff (df : DataFrame) (stats : PeriodStats) (c p : string)
    (cs : CityStats) :
  period_stats_of df = Ok stats -> stats !! c = Some cs -> p ∈ periods ->
  cs !! p = None <->
  of_year (fst (period_years p)) (of_city c df) = [] \/
  of_year (snd (period_years p)) (of_city c df) = [].
Proof.
  intros Hs Hc Hp.
  destruct (period_stats_city _ _ _ _ Hs Hc) as [_ Hcs].
  destruct (dict_for_lookup _ _ _ Hcs p) as [Hin _]. specialize (Hin Hp).
  unfold period_change in Hin. destruct (period_years p) as [ys ye]. simpl.
  rewrite <- compare_rows_None. split.
  - intros Hn. by rewrite Hn in Hin.
  - intros Hn. rewrite Hn in Hin. by injection Hin.
Qed.

End MissingRows.

(** C5 (amended): when the row of a city for the start year or the end
    year of a period is missing, the table computation leaves that period
    out of the entry of the city, without raising: on a table whose rows
    hold non-zero values for the four metrics it returns the mapping, in
    which every city of the table has an entry, and a period is absent
    from the entry of a city exactly when the city has no row for one of
    the two years. The mapping is all that is returned: no error names the
    missing row and nothing counts the periods left out. *)
Theorem missing_rows_leave_period_out (df : DataFrame) :
  (forall r, r ∈ df -> comparable r) ->
  exists stats,
    Analysis.period_stats_of df = Ok stats /\
    forall c, c ∈ cities df ->
      exists cs, stats !! c = Some cs /\
        forall p, p ∈ Analysis.periods ->
          cs !! p = None <->
          of_year (fst (Analysis.period_years p)) (of_city c df) = [] \/
          of_year (snd (Analysis.period_years p)) (of_city c df) = [].
Proof.
  intros Hall. destruct (proj1 (is_Ok_exists _) (period_stats_Ok df Hall)) as [stats Hs].
  exists stats. split; [done|]. intros c Hc.
  destruct (period_stats_city_present _ _ _ Hs Hc) as (cs & Hcs & _).
  exists cs. split; [done|]. intros p Hp. by eapply period_absent_iff.
Qed.

Lemma missing_rows_leave_period_out_witness :
  (forall r, r ∈ Sample.missing_year -> comparable r) /\
  exists stats,
    Analysis.period_stats_of Sample.missing_year = Ok stats /\
    forall c, c ∈ cities Sample.missing_year ->
      exists cs, stats !! c = Some cs /\
        forall p, p ∈ Analysis.periods ->
          cs !! p = None <->
          of_year (fst (Analysis.period_years p)) (of_city c Sample.missing_year)
          = [] \/
          of_year (snd (Analysis.period_years p)) (of_city c Sample.missing_year)
          = [].
Proof.
  assert (Hall : forall r, r ∈ Sample.missing_year -> comparable r).
  { intros r Hr metric Hm. unfold Sample.missing_year in Hr.
    unfold Analysis.table_metrics in Hm.
    repeat (apply elem_of_cons in Hr as [->|Hr]); [..|inversion Hr];
      repeat (apply elem_of_cons in Hm as [->|Hm]);
      try (by inversion Hm); eexists; split; reflexivity. }
  split; [exact Hall|].
  exact (missing_rows_leave_period_out Sample.missing_year Hall).
Defined.

(** A null value in an existing row is not treated as missing: the entry
    is produced, with NaN in it. A missing row raises no error: city C,
    which has no row for 2012, gets an entry with no period in it. *)
Lemma null_value_not_skipped :
  (exists stats cs pc mc,
     Analysis.period_stats_of Sample.null_start = Ok stats /\
     stats !! "A" = Some cs /\ cs !! "2007-2012" = Some pc /\
     pc !! "establishments" = Some mc /\
     Analysis.start mc = nan /\ Analysis.change_pct mc = nan) /\
  (exists stats,
     Analysis.period_stats_of Sample.missing_year = Ok stats /\
     stats !! "C" = Some ∅).
Proof.
  split.
  - do 4 eexists. do 4 (split; [reflexivity|]).
    split; vm_compute; reflexivity.
  - eexists. split; [reflexivity | vm_compute; reflexivity].
Qed.

(** ** thesis_key_findings.py and comprehensive_analysis.py *)

Lemma length_insert_by_year (r : Row) (l : DataFrame) :
  length (insert_by_year r l) = S (length l).
Proof.
  induction l as [|r' l IH]; simpl; [done|].
  destruct (year r <=? year r')%Z; simpl; [done | by rewrite IH].
Qed.

Lemma length_sort_values_year (df : DataFrame) :
  length (sort_values_year df) = length df.
Proof.
  induction df as [|r l IH]; simpl; [done|].
  by rewrite length_insert_by_year, IH.
Qed.

Lemma elem_of_insert_by_year (x r : Row) (l : DataFrame) :
  x ∈ insert_by_year r l <-> x = r \/ x ∈ l.
Proof.
  induction l as [|r' l IH]; simpl.
  - rewrite list_elem_of_singleton, elem_of_nil. tauto.
  - destruct (year r <=? year r')%Z.
    + by rewrite elem_of_cons.
    + rewrite !elem_of_cons, IH. tauto.
Qed.

Lemma elem_of_sort_values_year (x : Row) (df : DataFrame) :
  x ∈ sort_values_year df <-> x ∈ df.
Proof.
  induction df as [|r l IH]; simpl; [done|].
  by rewrite elem_of_insert_by_year, elem_of_cons, IH.
Qed.

Lemma values_length (column : string) (df : DataFrame) (vals : list float) :
  values column df = Ok vals -> length vals = length df.
Proof. intros Hv. by apply mapM_result_lookup in Hv as [Hlen _]. Qed.

Lemma values_Ok (column : string) (df : DataFrame) :
  (forall r, r ∈ df -> is_Some (metrics r !! column)) ->
  Py.is_Ok (values column df).
Proof.
  intros Hall. apply mapM_result_Ok. intros r Hr.
  destruct (Hall r Hr) as [v Hv]. unfold cell. by rewrite Hv.
Qed.

Lemma ends_Ok (vals : list float) :
  0 < length vals -> Py.is_Ok (ends vals).
Proof.
  intros Hlen. unfold ends. destruct vals as [|v vals]; [simpl in Hlen; lia|].
  simpl. destruct (last (v :: vals)) eqn:Hl; [done|].
  apply last_None in Hl. discriminate.
Qed.

Section Thesis.

Context `{NumericLibrary}.
Import ThesisKeyFindings.

(** The entry stored for a city, when there is one. *)
Lemma city_growth_entry_Some (df : DataFrame) (c : string) (g : CityGrowth) :
  city_growth_entry df c = Ok (Some g) ->
  let city_data := sort_values_year (of_city c df) in
  3 <= length (of_city c df) /\
  data_points g = length (of_city c df) /\
  (exists establishments employees,
     values "establishments" city_data = Ok establishments /\
     values "employees" city_data = Ok employees /\
     ends establishments
     = Ok (initial_establishments g, final_establishments g) /\
     ends employees = Ok (initial_employees g, final_employees g)) /\
  both_positive (initial_establishments g) (final_establishments g) = true /\
  establishments_cagr g
  = np_round
      (cagr_percent (initial_establishments g) (final_establishments g)
         (length (of_city c df) - 1)) 2 /\
  employees_cagr g
  = (if both_positive (initial_employees g) (final_employees g)
     then np_round
            (cagr_percent (initial_employees g) (final_employees g)
               (length (of_city c df) - 1)) 2
     else 0%float).
Proof.
  unfold city_growth_entry. intros Hg. simpl.
  rewrite length_sort_values_year in Hg.
  case_bool_decide as Hlen; [|discriminate].
  apply bind_Ok in Hg as (est & Hest & Hg).
  apply bind_Ok in Hg as (emp & Hemp & Hg).
  apply bind_Ok in Hg as ([est0 est1] & Hends & Hg).
  destruct (both_positive est0 est1) eqn:Hpos; [|discriminate].
  apply bind_Ok in Hg as ([emp0 emp1] & Hends' & Hg).
  injection Hg as <-. simpl.
  rewrite (values_length _ _ _ Hest), length_sort_values_year.
  split; [done|]. split; [done|]. split; [eauto 10|]. done.
Qed.

Lemma city_growth_entry_few (df : DataFrame) (c : string) :
  length (of_city c df) < 3 -> city_growth_entry df c = Ok None.
Proof.
  intros Hlen. unfold city_growth_entry.
  rewrite length_sort_values_year. case_bool_decide; [lia | done].
Qed.

Lemma city_growth_entry_Ok (df : DataFrame) (c : string) :
  has_columns ["establishments"; "employees"] df ->
  Py.is_Ok (city_growth_entry df c).
Proof.
  intros Hcols. unfold city_growth_entry.
  rewrite length_sort_values_year. case_bool_decide as Hlen; [|done].
  assert (Hin : forall column, column ∈ ["establishments"; "employees"] ->
            exists vals, values column (sort_values_year (of_city c df)) = Ok vals /\
                         0 < length vals).
  { intros column Hc.
    destruct (proj1 (is_Ok_exists _)
                (values_Ok column (sort_values_year (of_city c df))
                   (fun r Hr => Hcols r column
                      (proj2 (proj1 (list_elem_of_filter _ _ _)
                         (proj1 (elem_of_sort_values_year _ _) Hr))) Hc)))
      as [vals Hv].
    exists vals. split; [done|].
    rewrite (values_length _ _ _ Hv), length_sort_values_year. lia. }
  destruct (Hin "establishments") as (est & -> & Hl1); [by left|].
  destruct (Hin "employees") as (emp & -> & Hl2); [right; by left|].
  simpl.
  destruct (proj1 (is_Ok_exists _) (ends_Ok est Hl1)) as [[e0 e1] ->].
  destruct (proj1 (is_Ok_exists _) (ends_Ok emp Hl2)) as [[m0 m1] Hm].
  simpl. destruct (both_positive e0 e1); [|done].
  rewrite Hm. done.
Qed.

End Thesis.

Section TimeSeries.

Context `{NumericLibrary}.
Import ComprehensiveAnalysis.

Lemma column_trends_spec (city_data : DataFrame) (t0 t : gmap string float)
    (col : string) :
  3 <= length city_data ->
  column_trends city_data t0 col = Ok t ->
  exists vals first_value last_value,
    values col city_data = Ok vals /\
    ends vals = Ok (first_value, last_value) /\
    t = stored_trends col vals first_value last_value t0.
Proof.
  intros Hlen Ht. unfold column_trends in Ht.
  apply bind_Ok in Ht as (vals & Hv & Ht).
  pose proof (values_length _ _ _ Hv) as Hl.
  case_bool_decide as Hn; [|lia].
  apply bind_Ok in Ht as ([v0 v1] & Hends & Ht). injection Ht as <-.
  exists vals, v0, v1. done.
Qed.

(** The entry stored for a city, when there is one. *)
Lemma city_trends_entry_Some (df : DataFrame) (c : string)
    (t : gmap string float) :
  city_trends_entry df c = Ok (Some t) ->
  let city_data := sort_values_year (of_city c df) in
  3 <= length (of_city c df) /\
  exists est est0 est1 emp emp0 emp1,
    values "establishments" city_data = Ok est /\
    ends est = Ok (est0, est1) /\
    values "employees" city_data = Ok emp /\
    ends emp = Ok (emp0, emp1) /\
    length est = length (of_city c df) /\
    length emp = length (of_city c df) /\
    t = stored_trends "employees" emp emp0 emp1
          (stored_trends "establishments" est est0 est1 ∅).
Proof.
  unfold city_trends_entry. intros Ht. simpl.
  case_bool_decide as Hlen; [|discriminate].
  apply fmap_Some_Ok in Ht as (t' & Ht & [= ->]). simpl in Ht.
  apply bind_Ok in Ht as (t1 & H1 & Ht).
  apply bind_Ok in Ht as (t2 & H2 & Ht). injection Ht as <-.
  apply column_trends_spec in H1 as (est & est0 & est1 & Hest & He & ->); [|done].
  apply column_trends_spec in H2 as (emp & emp0 & emp1 & Hemp & Hm & ->); [|done].
  rewrite length_sort_values_year in Hlen. split; [done|].
  exists est, est0, est1, emp, emp0, emp1.
  rewrite (values_length _ _ _ Hest), (values_length _ _ _ Hemp),
    length_sort_values_year. done.
Qed.

Lemma city_trends_entry_few (df : DataFrame) (c : string) :
  length (of_city c df) < 3 -> city_trends_entry df c = Ok None.
Proof.
  intros Hlen. unfold city_trends_entry.
  rewrite length_sort_values_year. case_bool_decide; [lia | done].
Qed.

Lemma column_trends_Ok (city_data : DataFrame) (t0 : gmap string float)
    (col : string) :
  (forall r, r ∈ city_data -> is_Some (metrics r !! col)) ->
  Py.is_Ok (column_trends city_data t0 col).
Proof.
  intros Hall. unfold column_trends.
  destruct (proj1 (is_Ok_exists _) (values_Ok col city_data Hall)) as [vals ->].
  simpl. case_bool_decide as Hn; [|done].
  destruct (proj1 (is_Ok_exists _) (ends_Ok vals ltac:(lia))) as [[v0 v1] ->].
  done.
Qed.

Lemma city_trends_entry_Ok (df : DataFrame) (c : string) :
  has_columns ["establishments"; "employees"] df ->
  Py.is_Ok (city_trends_entry df c).
Proof.
  intros Hcols. unfold city_trends_entry. case_bool_decide as Hlen; [|done].
  assert (Hin : forall column, column ∈ ["establishments"; "employees"] ->
            forall r, r ∈ sort_values_year (of_city c df) ->
              is_Some (metrics r !! column)).
  { intros column Hc r Hr. rewrite elem_of_sort_values_year in Hr.
    apply list_elem_of_filter in Hr as [_ Hr]. by apply Hcols. }
  apply fmap_Some_is_Ok. simpl.
  pose proof (column_trends_Ok (sort_values_year (of_city c df)) ∅
                "establishments" (Hin _ ltac:(by left))) as H1.
  destruct (column_trends _ ∅ "establishments") as [t1|e]; [|done]. simpl.
  pose proof (column_trends_Ok (sort_values_year (of_city c df)) t1
                "employees" (Hin _ ltac:(right; by left))) as H2.
  destruct (column_trends _ t1 "employees") as [t2|e]; [|done]. done.
Qed.

(** The key [<col>_cagr] of an entry. *)
Lemma stored_cagr_lookup (est emp : list float) (est0 est1 emp0 emp1 : float) :
  let t := stored_trends "employees" emp emp0 emp1
             (stored_trends "establishments" est est0 est1 ∅) in
  t !! "establishments_cagr"
  = (if both_positive est0 est1
     then Some (np_round (cagr_percent est0 est1 (length est - 1)) 2)
     else None) /\
  t !! "employees_cagr"
  = (if both_positive emp0 emp1
     then Some (np_round (cagr_percent emp0 emp1 (length emp - 1)) 2)
     else None).
Proof.
  unfold stored_trends. simpl.
  destruct (both_positive est0 est1), (both_positive emp0 emp1);
    split; by simplify_map_eq.
Qed.

End TimeSeries.

(** ** The multi-point growth rates *)

Lemma has_columns_sample (df : DataFrame) :
  Forall (fun r => is_Some (metrics r !! "establishments") /\
                   is_Some (metrics r !! "employees")) df ->
  has_columns ["establishments"; "employees"] df.
Proof.
  intros Hall r column Hr Hc. rewrite Forall_forall in Hall.
  destruct (Hall r Hr) as [H1 H2].
  apply elem_of_cons in Hc as [->|Hc]; [done|].
  apply elem_of_cons in Hc as [->|Hc]; [done|]. inversion Hc.
Qed.

(** C10: a city with fewer than three observations has no entry in the
    per-city growth analyses of [identify_top_growth_cities] and
    [time_series_analysis], whatever the years of its observations; an
    entry exists only for at least three observations, and its growth
    rates are annualised with the exponent one over the number of
    observations minus one. *)
Theorem few_observations_no_entry `{NumericLibrary} (df : DataFrame) :
  has_columns ["establishments"; "employees"] df ->
  exists growth ts,
    ThesisKeyFindings.city_growth_of df = Ok growth /\
    ComprehensiveAnalysis.city_timeseries_of df = Ok ts /\
    (forall c, length (of_city c df) < 3 ->
       growth !! c = None /\ ts !! c = None) /\
    (forall c g, growth !! c = Some g ->
       3 <= length (of_city c df) /\
       ThesisKeyFindings.data_points g = length (of_city c df) /\
       ThesisKeyFindings.establishments_cagr g
       = np_round
           ((np_power
               (ThesisKeyFindings.final_establishments g
                / ThesisKeyFindings.initial_establishments g)
               (1 / float_of_nat (length (of_city c df) - 1)) - 1) * 100) 2) /\
    (forall c t col v,
       ts !! c = Some t -> col ∈ ComprehensiveAnalysis.trend_columns ->
       t !! (col +:+ "_cagr") = Some v ->
       3 <= length (of_city c df) /\
       exists vals first_value last_value,
         values col (sort_values_year (of_city c df)) = Ok vals /\
         ends vals = Ok (first_value, last_value) /\
         v = np_round
               ((np_power (last_value / first_value)
                   (1 / float_of_nat (length (of_city c df) - 1)) - 1) * 100)
               2).
Proof.
  intros Hcols.
  destruct (dict_for_Ok (ThesisKeyFindings.city_growth_entry df) (cities df))
    as [growth Hg]; [intros c _; by apply city_growth_entry_Ok|].
  destruct (dict_for_Ok (ComprehensiveAnalysis.city_trends_entry df) (cities df))
    as [ts Hts]; [intros c _; by apply city_trends_entry_Ok|].
  exists growth, ts. split; [done|]. split; [done|].
  assert (Hgc : forall c, ThesisKeyFindings.city_growth_entry df c
                          = Ok (growth !! c) \/ growth !! c = None).
  { intros c. destruct (dict_for_lookup _ _ _ Hg c) as [Hin Hout].
    destruct (decide (c ∈ cities df)); auto. }
  assert (Htc : forall c, ComprehensiveAnalysis.city_trends_entry df c
                          = Ok (ts !! c) \/ ts !! c = None).
  { intros c. destruct (dict_for_lookup _ _ _ Hts c) as [Hin Hout].
    destruct (decide (c ∈ cities df)); auto. }
  split; [|split].
  - intros c Hlen. split.
    + destruct (Hgc c) as [He|Hn]; [|done].
      rewrite (city_growth_entry_few df c Hlen) in He. by injection He.
    + destruct (Htc c) as [He|Hn]; [|done].
      rewrite (city_trends_entry_few df c Hlen) in He. by injection He.
  - intros c g Hc. destruct (Hgc c) as [He|Hn]; [|congruence].
    rewrite Hc in He.
    apply city_growth_entry_Some in He as (Hlen & Hdp & _ & _ & Hcagr & _).
    done.
  - intros c t col v Hc Hcol Hv. destruct (Htc c) as [He|Hn]; [|congruence].
    rewrite Hc in He.
    apply city_trends_entry_Some in He
      as (Hlen & est & est0 & est1 & emp & emp0 & emp1
          & Hest & Hends & Hemp & Hendm & Hl1 & Hl2 & ->).
    split; [done|].
    destruct (stored_cagr_lookup est emp est0 est1 emp0 emp1) as [Hk1 Hk2].
    unfold ComprehensiveAnalysis.trend_columns in Hcol.
    apply elem_of_cons in Hcol as [->|Hcol];
      [|apply elem_of_cons in Hcol as [->|Hcol]; [|inversion Hcol]].
    + change ("establishments" +:+ "_cagr") with "establishments_cagr" in Hv.
      simpl in Hk1. rewrite Hk1 in Hv.
      destruct (both_positive est0 est1); [|discriminate].
      injection Hv as <-. rewrite Hl1. exists est, est0, est1. done.
    + change ("employees" +:+ "_cagr") with "employees_cagr" in Hv.
      simpl in Hk2. rewrite Hk2 in Hv.
      destruct (both_positive emp0 emp1); [|discriminate].
      injection Hv as <-. rewrite Hl2. exists emp, emp0, emp1. done.
Qed.

Lemma few_observations_no_entry_witness :
  has_columns ["establishments"; "employees"] Sample.two_points /\
  length (of_city "E" Sample.two_points) < 3 /\
  of_year 2007 (of_city "E" Sample.two_points) <> [] /\
  of_year 2021 (of_city "E" Sample.two_points) <> [] /\
  exists growth ts,
    @ThesisKeyFindings.city_growth_of Sample.library Sample.two_points
    = Ok growth /\
    @ComprehensiveAnalysis.city_timeseries_of Sample.library Sample.two_points
    = Ok ts /\
    growth !! "E" = None /\ ts !! "E" = None.
Proof.
  assert (Hcols : has_columns ["establishments"; "employees"] Sample.two_points).
  { apply has_columns_sample.
    repeat constructor; eexists; reflexivity. }
  split; [exact Hcols|].
  split; [vm_compute; lia|]. split; [discriminate|]. split; [discriminate|].
  destruct (@few_observations_no_entry Sample.library Sample.two_points Hcols)
    as (growth & ts & Hg & Hts & Hfew & _).
  exists growth, ts. split; [exact Hg|]. split; [exact Hts|].
  apply Hfew. vm_compute. lia.
Defined.

(** C4 (amended): in [time_series_analysis] the key [<col>_cagr] is stored
    in the entry of a city exactly when the first and the last value of
    the column are both greater than zero, and nothing stands in for it
    otherwise; in [identify_top_growth_cities] a city with at least three
    observations has an entry exactly when its first and last numbers of
    establishments are both greater than zero, and the employees rate of
    an entry is the rounded growth rate when the first and last numbers of
    employees are both greater than zero, and the number zero otherwise;
    the numbers are the first and last values of the column of the city,
    in the order of the years. *)
Theorem cagr_stored_when_positive `{NumericLibrary} (df : DataFrame) (c : string) :
  (forall ts t,
     ComprehensiveAnalysis.city_timeseries_of df = Ok ts -> ts !! c = Some t ->
     exists est est0 est1 emp emp0 emp1,
       values "establishments" (sort_values_year (of_city c df)) = Ok est /\
       ends est = Ok (est0, est1) /\
       values "employees" (sort_values_year (of_city c df)) = Ok emp /\
       ends emp = Ok (emp0, emp1) /\
       (is_Some (t !! "establishments_cagr") <-> both_positive est0 est1 = true) /\
       (is_Some (t !! "employees_cagr") <-> both_positive emp0 emp1 = true)) /\
  (forall growth,
     ThesisKeyFindings.city_growth_of df = Ok growth ->
     c ∈ cities df -> 3 <= length (of_city c df) ->
     exists est est0 est1,
       values "establishments" (sort_values_year (of_city c df)) = Ok est /\
       ends est = Ok (est0, est1) /\
       (is_Some (growth !! c) <-> both_positive est0 est1 = true)) /\
  (forall growth g,
     ThesisKeyFindings.city_growth_of df = Ok growth -> growth !! c = Some g ->
     exists emp emp0 emp1,
       values "employees" (sort_values_year (of_city c df)) = Ok emp /\
       ends emp = Ok (emp0, emp1) /\
       ThesisKeyFindings.initial_employees g = emp0 /\
       ThesisKeyFindings.final_employees g = emp1 /\
       ThesisKeyFindings.employees_cagr g
       = if both_positive emp0 emp1
         then np_round (cagr_percent emp0 emp1 (length (of_city c df) - 1)) 2
         else 0%float).
Proof.
  split; [|split].
  - intros ts t Hts Hc.
    destruct (dict_for_lookup _ _ _ Hts c) as [Hin Hout].
    destruct (decide (c ∈ cities df)) as [Hk|Hk];
      [|rewrite (Hout Hk) in Hc; discriminate].
    specialize (Hin Hk). rewrite Hc in Hin.
    apply city_trends_entry_Some in Hin
      as (Hlen & est & est0 & est1 & emp & emp0 & emp1
          & Hest & Hends & Hemp & Hendm & Hl1 & Hl2 & ->).
    exists est, est0, est1, emp, emp0, emp1.
    destruct (stored_cagr_lookup est emp est0 est1 emp0 emp1) as [Hk1 Hk2].
    simpl in Hk1, Hk2. rewrite Hk1, Hk2.
    do 4 (split; [done|]).
    destruct (both_positive est0 est1), (both_positive emp0 emp1);
      split; split; intros Hx; try done; try (by eexists);
      by destruct Hx.
  - intros growth Hg Hk Hlen.
    destruct (dict_for_lookup _ _ _ Hg c) as [Hin _]. specialize (Hin Hk).
    destruct (growth !! c) as [g|] eqn:Hc.
    + apply city_growth_entry_Some in Hin
        as (_ & _ & (est & emp & Hest & _ & Hends & _) & Hpos & _).
      exists est, (ThesisKeyFindings.initial_establishments g),
        (ThesisKeyFindings.final_establishments g).
      split; [done|]. split; [done|]. by rewrite Hpos.
    + unfold ThesisKeyFindings.city_growth_entry in Hin.
      rewrite length_sort_values_year in Hin.
      case_bool_decide; [|lia].
      apply bind_Ok in Hin as (est & Hest & Hin).
      apply bind_Ok in Hin as (emp & Hemp & Hin).
      apply bind_Ok in Hin as ([est0 est1] & Hends & Hin).
      exists est, est0, est1. split; [done|]. split; [done|].
      destruct (both_positive est0 est1).
      * apply bind_Ok in Hin as ([emp0 emp1] & _ & Hin). discriminate.
      * split; [by intros [? ?] | done].
  - intros growth g Hg Hc.
    destruct (dict_for_lookup _ _ _ Hg c) as [Hin Hout].
    destruct (decide (c ∈ cities df)) as [Hk|Hk];
      [|rewrite (Hout Hk) in Hc; discriminate].
    specialize (Hin Hk). rewrite Hc in Hin.
    apply city_growth_entry_Some in Hin
      as (_ & _ & (est & emp & _ & Hemp & _ & Hends) & _ & _ & Hrate).
    exists emp, (ThesisKeyFindings.initial_employees g),
      (ThesisKeyFindings.final_employees g).
    done.
Qed.

Lemma cagr_stored_when_positive_witness :
  (exists ts t emp emp0 emp1,
     @ComprehensiveAnalysis.city_timeseries_of Sample.library
       Sample.zero_employees = Ok ts /\
     ts !! "A" = Some t /\
     values "employees" (sort_values_year (of_city "A" Sample.zero_employees))
     = Ok emp /\
     ends emp = Ok (emp0, emp1) /\
     both_positive emp0 emp1 = false /\
     t !! "employees_cagr" = None /\
     is_Some (t !! "establishments_cagr")) /\
  (exists growth g emp emp0 emp1,
     @ThesisKeyFindings.city_growth_of Sample.library Sample.zero_employees
     = Ok growth /\
     growth !! "A" = Some g /\
     values "employees" (sort_values_year (of_city "A" Sample.zero_employees))
     = Ok emp /\
     ends emp = Ok (emp0, emp1) /\
     both_positive emp0 emp1 = false /\
     ThesisKeyFindings.employees_cagr g = 0%float).
Proof.
  destruct (@cagr_stored_when_positive Sample.library Sample.zero_employees "A")
    as (Hts & Hentry & Hrate).
  split.
  - destruct (Hts _ _ eq_refl eq_refl)
      as (est & est0 & est1 & emp & emp0 & emp1
          & Hest & Hends & Hemp & Hendm & Hk1 & Hk2).
    assert (Hzero : both_positive emp0 emp1 = false).
    { vm_compute in Hemp. injection Hemp as <-.
      vm_compute in Hendm. injection Hendm as <- <-. reflexivity. }
    assert (Hpos : both_positive est0 est1 = true).
    { vm_compute in Hest. injection Hest as <-.
      vm_compute in Hends. injection Hends as <- <-. reflexivity. }
    do 2 eexists. exists emp, emp0, emp1.
    split; [reflexivity|]. split; [reflexivity|].
    split; [exact Hemp|]. split; [exact Hendm|]. split; [exact Hzero|].
    split.
    + destruct (_ !! "employees_cagr") as [v|] eqn:Hv; [|reflexivity].
      rewrite Hzero in Hk2. destruct Hk2 as [Hk2 _].
      discriminate Hk2. by eexists.
    + apply Hk1. exact Hpos.
  - destruct (Hrate _ _ eq_refl eq_refl)
      as (emp & emp0 & emp1 & Hemp & Hendm & _ & _ & Hcagr).
    assert (Hzero : both_positive emp0 emp1 = false).
    { vm_compute in Hemp. injection Hemp as <-.
      vm_compute in Hendm. injection Hendm as <- <-. reflexivity. }
    do 2 eexists. exists emp, emp0, emp1.
    split; [reflexivity|]. split; [reflexivity|].
    split; [exact Hemp|]. split; [exact Hendm|]. split; [exact Hzero|].
    rewrite Hcagr, Hzero. reflexivity.
Defined.

(** With no employees in the first year, the employees rate of the city
    is reported as zero, not left out; and with a null first value, which
    is neither positive nor at most zero, the rate of the establishments is
    left out. *)
Lemma zero_reported_for_employees :
  (exists growth g,
     @ThesisKeyFindings.city_growth_of Sample.library Sample.zero_employees
     = Ok growth /\
     growth !! "A" = Some g /\
     ThesisKeyFindings.initial_employees g = 0%float /\
     ThesisKeyFindings.employees_cagr g = 0%float) /\
  (exists ts t,
     @ComprehensiveAnalysis.city_timeseries_of Sample.library Sample.null_first
     = Ok ts /\
     ts !! "A" = Some t /\
     t !! "establishments_cagr" = None /\
     is_Some (t !! "employees_cagr") /\
     (nan <=? 0)%float = false /\ (400 <=? 0)%float = false).
Proof.
  split.
  - do 2 eexists. do 2 (split; [reflexivity|]). split; reflexivity.
  - do 2 eexists. do 2 (split; [reflexivity|]).
    split; [vm_compute; reflexivity|]. split; [|split; reflexivity].
    eexists. vm_compute. reflexivity.
Qed.

(** ** The annualisation exponent *)

(** In fixed_visualization.py and english_visualization.py the growth
    rates of 2007-2021 are annualised over the fourteen years between the
    two reference years. *)
Lemma growth_record_exponent `{NumericLibrary} (label : string)
    (city_data : DataFrame) (records : list Visualization.Growth)
    (rec : Visualization.Growth) :
  Visualization.growth_record label city_data = Ok records -> rec ∈ records ->
  exists est_2007 est_2021 emp_2007 emp_2021,
    iloc0 "establishments" (of_year 2007 city_data) = Ok est_2007 /\
    iloc0 "establishments" (of_year 2021 city_data) = Ok est_2021 /\
    iloc0 "employees" (of_year 2007 city_data) = Ok emp_2007 /\
    iloc0 "employees" (of_year 2021 city_data) = Ok emp_2021 /\
    Visualization.est_cagr rec
    = ((np_power (est_2021 / est_2007)
          (1 / float_of_nat (Z.to_nat (2021 - 2007))) - 1) * 100)%float /\
    Visualization.emp_cagr rec
    = ((np_power (emp_2021 / emp_2007)
          (1 / float_of_nat (Z.to_nat (2021 - 2007))) - 1) * 100)%float.
Proof.
  unfold Visualization.growth_record.
  case_bool_decide as Hlen; [|intros [= <-] Hin; inversion Hin].
  intros Hr Hin.
  apply bind_Ok in Hr as (e07 & H1 & Hr).
  apply bind_Ok in Hr as (e21 & H2 & Hr).
  apply bind_Ok in Hr as (m07 & H3 & Hr).
  apply bind_Ok in Hr as (m21 & H4 & Hr). injection Hr as <-.
  apply list_elem_of_singleton in Hin as ->.
  exists e07, e21, m07, m21. done.
Qed.

(** C1: on the three observations of city A, 100 establishments in 2007
    and 400 in 2021, [time_series_analysis] annualises the growth with the
    exponent one half, one over the number of observations minus one, and
    not with one over the fourteen years between the two observations. *)
Theorem three_points_exponent `{NumericLibrary} :
  exists ts t,
    ComprehensiveAnalysis.city_timeseries_of Sample.three_points = Ok ts /\
    ts !! "A" = Some t /\
    t !! "establishments_cagr"
    = Some (np_round ((np_power (400 / 100) (1 / 2) - 1) * 100) 2) /\
    (year <$> head Sample.three_points) = Some 2007%Z /\
    (year <$> last Sample.three_points) = Some 2021%Z.
Proof.
  do 2 eexists. split; [reflexivity|]. split; [reflexivity|].
  split; [vm_compute; reflexivity|]. split; reflexivity.
Qed.

(** The same table in fixed_visualization.py: the exponent is one over
    fourteen. *)
Lemma three_points_fixed_exponent `{NumericLibrary} :
  Visualization.growth_data_of Sample.three_points
  = Ok [Visualization.mkGrowth "A"
          ((np_power (400 / 100) (1 / 14) - 1) * 100)
          ((np_power (5 / 10) (1 / 14) - 1) * 100)].
Proof. vm_compute. reflexivity. Qed.

(** C2: on the same table, the establishments rate returned by
    [identify_top_growth_cities] is 100 percent a year (for a library whose
    square root of 4, rounding of 100 and fourteenth power of 2 are
    exact); compounded over the fourteen years from 2007 to 2021 it turns
    the 100 establishments of 2007 into 1638400, not into the 400 of
    2021. *)
Theorem three_points_round_trip `{NumericLibrary} :
  np_power 4 0.5 = 2%float ->
  np_round 100 2 = 100%float ->
  np_power 2 14 = 16384%float ->
  exists growth g,
    ThesisKeyFindings.city_growth_of Sample.three_points = Ok growth /\
    growth !! "A" = Some g /\
    ThesisKeyFindings.initial_establishments g = 100%float /\
    ThesisKeyFindings.final_establishments g = 400%float /\
    ThesisKeyFindings.establishments_cagr g = 100%float /\
    (ThesisKeyFindings.initial_establishments g
     * np_power (1 + ThesisKeyFindings.establishments_cagr g / 100)
         (float_of_nat (Z.to_nat (2021 - 2007))))%float
    = 1638400%float.
Proof.
  intros Hsqrt Hround Hpow.
  do 2 eexists. split; [reflexivity|]. split; [reflexivity|].
  assert (Hc : np_round ((np_power (400 / 100) (1 / float_of_nat 2) - 1) * 100) 2
               = 100%float).
  { change (400 / 100)%float with 4%float.
    change (1 / float_of_nat 2)%float with 0.5%float.
    rewrite Hsqrt. change ((2 - 1) * 100)%float with 100%float. exact Hround. }
  split; [reflexivity|]. split; [reflexivity|].
  split; [exact Hc|].
  change (100 * np_power
                  (1 + np_round
                         ((np_power (400 / 100) (1 / float_of_nat 2) - 1) * 100)
                         2 / 100)
                  (float_of_nat (Z.to_nat (2021 - 2007)))
          = 1638400)%float.
  rewrite Hc. change (1 + 100 / 100)%float with 2%float.
  change (float_of_nat (Z.to_nat (2021 - 2007))) with 14%float.
  rewrite Hpow. reflexivity.
Qed.

Lemma three_points_round_trip_witness :
  @np_power Sample.library 4 0.5 = 2%float /\
  @np_round Sample.library 100 2 = 100%float /\
  @np_power Sample.library 2 14 = 16384%float /\
  exists growth g,
    @ThesisKeyFindings.city_growth_of Sample.library Sample.three_points
    = Ok growth /\
    growth !! "A" = Some g /\
    ThesisKeyFindings.initial_establishments g = 100%float /\
    ThesisKeyFindings.final_establishments g = 400%float /\
    ThesisKeyFindings.establishments_cagr g = 100%float /\
    (ThesisKeyFindings.initial_establishments g
     * @np_power Sample.library
         (1 + ThesisKeyFindings.establishments_cagr g / 100)
         (float_of_nat (Z.to_nat (2021 - 2007))))%float
    = 1638400%float.
Proof.
  split; [vm_compute; reflexivity|].
  split; [vm_compute; reflexivity|].
  split; [vm_compute; reflexivity|].
  apply (@three_points_round_trip Sample.library); vm_compute; reflexivity.
Defined.

(** With the stand-in library: 100 percent a year from the multi-point
    computation, about 10.4 percent a year over the fourteen years. *)
Lemma three_points_rates :
  (exists ts t,
     @ComprehensiveAnalysis.city_timeseries_of Sample.library Sample.three_points
     = Ok ts /\
     ts !! "A" = Some t /\ t !! "establishments_cagr" = Some 100%float) /\
  @Visualization.growth_record Sample.library "A" Sample.three_points
  = Ok [Visualization.mkGrowth "A"
          ((@np_power Sample.library 4 (1 / 14) - 1) * 100)
          ((@np_power Sample.library 0.5 (1 / 14) - 1) * 100)] /\
  (((@np_power Sample.library 4 (1 / 14) - 1) * 100 <? 10.5)%float = true).
Proof.
  split; [|split].
  - do 2 eexists. split; [reflexivity|]. split; [reflexivity|].
    vm_compute. reflexivity.
  - vm_compute. reflexivity.
  - vm_compute. reflexivity.
Qed.

(** ** create_presentation_figures.py: the rows of 2014 *)

Lemma of_year_not_of_year (y y' : Z) (df : DataFrame) :
  y <> y' -> of_year y (not_of_year y' df) = of_year y df.
Proof.
  intros Hne. unfold of_year, not_of_year.
  induction df as [|r l IH]; [done|].
  rewrite !filter_cons. destruct (decide (year r <> y')) as [Hr|Hr].
  - rewrite filter_cons. by rewrite IH.
  - rewrite IH. destruct (decide (year r = y)) as [Hy|Hy]; [|done].
    exfalso. apply Hr. congruence.
Qed.

Lemma year_keys_spec (df : DataFrame) (y : Z) :
  y ∈ PresentationFigures.year_keys df <-> exists r, r ∈ df /\ year r = y.
Proof.
  unfold PresentationFigures.year_keys.
  rewrite merge_sort_Permutation, unique_spec, list_elem_of_fmap. split.
  - intros (r & -> & Hr). eauto.
  - intros (r & Hr & <-). eauto.
Qed.

Lemma mapM_result_elem {A B} (f : A -> result B) (l : list A) (k : list B) :
  mapM f l = Ok k ->
  (forall y, y ∈ k -> exists x, x ∈ l /\ f x = Ok y) /\
  (forall x, x ∈ l -> exists y, y ∈ k /\ f x = Ok y).
Proof.
  intros Hk. apply mapM_result_lookup in Hk as [Hlen Hk]. split.
  - intros y Hy. apply list_elem_of_lookup in Hy as [i Hi].
    destruct (l !! i) as [x|] eqn:Hx.
    + destruct (Hk i x Hx) as (y' & Hy' & Hf).
      exists x. split; [by eapply list_elem_of_lookup_2|]. congruence.
    + apply lookup_ge_None in Hx. apply lookup_lt_Some in Hi. lia.
  - intros x Hx. apply list_elem_of_lookup in Hx as [i Hi].
    destruct (Hk i x Hi) as (y & Hy & Hf).
    exists y. split; [by eapply list_elem_of_lookup_2 | done].
Qed.

(** C9: the yearly means of [create_time_series_chart], the rows of the
    box plots of [create_regional_comparison] and the summary statistics of
    [create_statistics_summary] are computed from the rows whose year is
    not 2014, and from all of them: the test is on the year alone, the
    values of a row play no part in it, and two tables that differ only in
    their rows of 2014 give the same results. *)
Theorem year_2014_excluded `{NumericLibrary} (df : DataFrame) :
  (forall lines, PresentationFigures.yearly_avg df = Ok lines ->
     (forall y, y ∈ (fun line => fst (fst line)) <$> lines <->
                y <> 2014%Z /\ exists r, r ∈ df /\ year r = y) /\
     (forall y establishments employees,
        (y, establishments, employees) ∈ lines ->
        exists est emp,
          values "establishments" (of_year y df) = Ok est /\
          values "employees" (of_year y df) = Ok emp /\
          establishments = series_mean est /\
          employees = series_mean emp)) /\
  (forall r, r ∈ PresentationFigures.regional_rows df <->
             r ∈ df /\ year r <> 2014%Z /\ is_Some (labels r !! "region")) /\
  (forall stats, PresentationFigures.statistics_summary df = Ok stats ->
     exists est emp,
       values "establishments" (filter (fun r => year r <> 2014%Z) df) = Ok est /\
       values "employees" (filter (fun r => year r <> 2014%Z) df) = Ok emp /\
       stats = (describe est, describe emp)) /\
  (forall df',
     filter (fun r => year r <> 2014%Z) df'
     = filter (fun r => year r <> 2014%Z) df ->
     PresentationFigures.yearly_avg df' = PresentationFigures.yearly_avg df /\
     PresentationFigures.regional_rows df'
     = PresentationFigures.regional_rows df /\
     PresentationFigures.statistics_summary df'
     = PresentationFigures.statistics_summary df).
Proof.
  split; [|split; [|split]].
  - intros lines Hl. unfold PresentationFigures.yearly_avg in Hl.
    apply mapM_result_elem in Hl as [Hback Hforth].
    assert (Hkey : forall y, y ∈ PresentationFigures.year_keys (not_of_year 2014 df)
                     <-> y <> 2014%Z /\ exists r, r ∈ df /\ year r = y).
    { intros y. rewrite year_keys_spec. unfold not_of_year. split.
      - intros (r & Hr & <-). apply list_elem_of_filter in Hr as [Hy Hr]. eauto.
      - intros (Hy & r & Hr & <-). exists r. split; [|done].
        by apply list_elem_of_filter. }
    assert (Hline : forall y line,
              y ∈ PresentationFigures.year_keys (not_of_year 2014 df) ->
              (est ← values "establishments" (of_year y (not_of_year 2014 df));
               emp ← values "employees" (of_year y (not_of_year 2014 df));
               mret (y, series_mean est, series_mean emp)) = Ok line ->
              exists est emp,
                values "establishments" (of_year y df) = Ok est /\
                values "employees" (of_year y df) = Ok emp /\
                line = (y, series_mean est, series_mean emp)).
    { intros y line Hy Hf. apply Hkey in Hy as [Hy _].
      rewrite (of_year_not_of_year y 2014 df Hy) in Hf.
      apply bind_Ok in Hf as (est & Hest & Hf).
      apply bind_Ok in Hf as (emp & Hemp & Hf). injection Hf as <-.
      exists est, emp. done. }
    split.
    + intros y. rewrite <- Hkey, list_elem_of_fmap. split.
      * intros (line & -> & Hin). destruct (Hback line Hin) as (y & Hy & Hf).
        destruct (Hline y line Hy Hf) as (est & emp & _ & _ & ->). done.
      * intros Hy. destruct (Hforth y Hy) as (line & Hin & Hf).
        destruct (Hline y line Hy Hf) as (est & emp & _ & _ & ->).
        eexists. split; [|exact Hin]. done.
    + intros y e m Hin. destruct (Hback _ Hin) as (y' & Hy & Hf).
      destruct (Hline y' _ Hy Hf) as (est & emp & Hest & Hemp & Heq).
      injection Heq as -> -> ->. exists est, emp. done.
  - intros r. unfold PresentationFigures.regional_rows, not_of_year.
    rewrite !list_elem_of_filter. tauto.
  - intros stats Hs. unfold PresentationFigures.statistics_summary in Hs.
    apply bind_Ok in Hs as (est & Hest & Hs).
    apply bind_Ok in Hs as (emp & Hemp & Hs). injection Hs as <-.
    exists est, emp. done.
  - intros df' Heq.
    unfold PresentationFigures.yearly_avg, PresentationFigures.regional_rows,
      PresentationFigures.statistics_summary, not_of_year.
    rewrite Heq. done.
Qed.

Lemma year_2014_excluded_witness :
  filter (fun r => year r <> 2014%Z) Sample.with_2014
  = filter (fun r => year r <> 2014%Z) Sample.without_2014 /\
  @PresentationFigures.yearly_avg Sample.library Sample.with_2014
  = @PresentationFigures.yearly_avg Sample.library Sample.without_2014 /\
  PresentationFigures.regional_rows Sample.with_2014
  = PresentationFigures.regional_rows Sample.without_2014 /\
  @PresentationFigures.statistics_summary Sample.library Sample.with_2014
  = @PresentationFigures.statistics_summary Sample.library Sample.without_2014.
Proof.
  assert (Heq : filter (fun r => year r <> 2014%Z) Sample.with_2014
                = filter (fun r => year r <> 2014%Z) Sample.without_2014)
    by reflexivity.
  split; [exact Heq|].
  exact (proj2 (proj2 (proj2
           (@year_2014_excluded Sample.library Sample.without_2014)))
           Sample.with_2014 Heq).
Defined.

(** The means of 2007 and 2021 on the sample table: the 9000
    establishments of 2014 are in none of them, and 2014 has no line. *)
Lemma sample_yearly_avg :
  @PresentationFigures.yearly_avg Sample.library Sample.with_2014
  = Ok [(2007%Z, 200%float, 20%float); (2021%Z, 400%float, 5%float)] /\
  length (PresentationFigures.regional_rows Sample.with_2014) = 3.
Proof. split; vm_compute; reflexivity. Qed.

(** ** comprehensive_analysis.py: make_json_safe *)

Section JsonSafe.

Import SaveResults.

(** Induction on the values of a result dictionary. *)
Lemma Object_induction (P : Object -> Prop) :
  P PyNone -> (forall b, P (PyBool b)) -> (forall z, P (PyInt z)) ->
  (forall f, P (PyFloat f)) -> (forall s, P (PyStr s)) ->
  (forall elements, Forall P elements -> P (PyList elements)) ->
  (forall items, Forall (fun kv => P (snd kv)) items -> P (PyDict items)) ->
  forall obj, P obj.
Proof.
  intros HNone HBool HInt HFloat HStr HList HDict.
  fix IH 1. intros [ |b|z|f|s|elements|items].
  - exact HNone.
  - apply HBool.
  - apply HInt.
  - apply HFloat.
  - apply HStr.
  - apply HList. induction elements as [|x l IHl]; constructor; [apply IH | exact IHl].
  - apply HDict. induction items as [|[k v] l IHl]; constructor; [apply IH | exact IHl].
Qed.

Lemma existsb_map_false {A B} (f : A -> B) (p : B -> bool) (l : list A) :
  Forall (fun x => p (f x) = false) l -> existsb p (map f l) = false.
Proof.
  induction 1 as [|x l Hx _ IH]; simpl; [done|]. by rewrite Hx, IH.
Qed.

(** What [make_json_safe] returns has, at every place, the converted value
    of what was there. *)
Lemma at_path_make_json_safe (path : list nat) (obj : Object) :
  at_path path (make_json_safe obj) = make_json_safe <$> at_path path obj.
Proof.
  revert obj. induction path as [|i path IH]; intros obj; [done|].
  destruct obj as [ |b|z|f|s|elements|items]; simpl; try done.
  - by destruct (is_nan f).
  - rewrite list_lookup_fmap.
    destruct (elements !! i) as [element|]; simpl; [apply IH | done].
  - rewrite list_lookup_fmap.
    destruct (items !! i) as [[k v]|]; simpl; [apply IH | done].
Qed.

(** X1: no NaN is left anywhere in what [make_json_safe] returns: where
    the value had a float, at whatever depth of its lists and dicts, the
    result has None if the float was NaN and the same float otherwise. *)
Theorem make_json_safe_no_nan (obj : Object) :
  has_nan (make_json_safe obj) = false /\
  forall path f,
    at_path path obj = Some (PyFloat f) ->
    at_path path (make_json_safe obj)
    = Some (if is_nan f then PyNone else PyFloat f).
Proof.
  split.
  - induction obj as [ |b|z|f|s|elements IH|items IH] using Object_induction;
      simpl; try done.
    + destruct (is_nan f) eqn:Hf; simpl; [done | exact Hf].
    + by apply existsb_map_false.
    + apply existsb_map_false. exact IH.
  - intros path f Hf. by rewrite at_path_make_json_safe, Hf.
Qed.

(** A NaN three levels down: under a key, in a list, under a key. *)
Lemma nested_nan_becomes_none :
  at_path [1; 0; 0]%nat
    (make_json_safe
       (PyDict [("n", PyInt 3);
                ("rows", PyList [PyDict [("cagr", PyFloat nan)];
                                 PyDict [("cagr", PyFloat 2)]])]))
  = Some PyNone.
Proof.
  apply (proj2 (make_json_safe_no_nan _) [1; 0; 0]%nat nan). reflexivity.
Defined.

Lemma map_id_Forall {A} (f : A -> A) (l : list A) :
  Forall (fun x => f x = x) l -> map f l = l.
Proof. induction 1 as [|x l Hx _ IH]; simpl; [done|]. by rewrite Hx, IH. Qed.

Lemma existsb_false_Forall {A} (p : A -> bool) (l : list A) :
  existsb p l = false -> Forall (fun x => p x = false) l.
Proof.
  induction l as [|x l IH]; simpl; [constructor|].
  intros Hx. apply orb_false_iff in Hx as [Hx Hl]. constructor; auto.
Qed.

(** X2: a value without NaN goes through [make_json_safe] unchanged. *)
Theorem make_json_safe_clean (obj : Object) :
  has_nan obj = false -> make_json_safe obj = obj.
Proof.
  induction obj as [ |b|z|f|s|elements IH|items IH] using Object_induction;
    simpl; try done.
  - intros ->. done.
  - intros Hn. f_equal. apply map_id_Forall.
    apply existsb_false_Forall in Hn.
    rewrite Forall_forall in IH, Hn. apply Forall_forall. intros x Hx. auto.
  - intros Hn. f_equal. apply map_id_Forall.
    apply existsb_false_Forall in Hn.
    rewrite Forall_forall in IH, Hn. apply Forall_forall. intros [k v] Hx.
    simpl. f_equal. apply (IH _ Hx). apply (Hn _ Hx).
Qed.

Lemma make_json_safe_clean_witness :
  has_nan (PyDict [("mean", PyFloat 1.5); ("significant", PyBool true);
                   ("years", PyList [PyInt 2007; PyInt 2021])]) = false /\
  make_json_safe (PyDict [("mean", PyFloat 1.5); ("significant", PyBool true);
                          ("years", PyList [PyInt 2007; PyInt 2021])])
  = PyDict [("mean", PyFloat 1.5); ("significant", PyBool true);
            ("years", PyList [PyInt 2007; PyInt 2021])].
Proof.
  split; [reflexivity|]. apply make_json_safe_clean. reflexivity.
Defined.

Lemma map_map_Forall {A B} (f g : A -> B) (l : list A) :
  Forall (fun x => f x = g x) l -> map f l = map g l.
Proof. induction 1 as [|x l Hx _ IH]; simpl; [done|]. by rewrite Hx, IH. Qed.

(** X3: [make_json_safe] keeps the keys of every dict, in their order, and
    the length of every list, and applying it twice changes nothing more:
    only NaN scalars are replaced, by None. *)
Theorem make_json_safe_shape (obj : Object) :
  shape (make_json_safe obj) = shape obj /\
  make_json_safe (make_json_safe obj) = make_json_safe obj.
Proof.
  induction obj as [ |b|z|f|s|elements IH|items IH] using Object_induction;
    simpl; try done.
  - destruct (is_nan f) eqn:Hf; simpl; [done|]. by rewrite Hf.
  - rewrite !map_map. split; f_equal; apply map_map_Forall;
      (eapply Forall_impl; [exact IH|]); simpl; intros x [H1 H2]; done.
  - rewrite !map_map. split; f_equal; apply map_map_Forall;
      (eapply Forall_impl; [exact IH|]); simpl; intros [k v] [H1 H2];
      simpl in *; by f_equal.
Qed.

End JsonSafe.

(** ** comprehensive_analysis.py: the overview of save_results *)

Lemma NoDup_unique_from {A} `{EqDecision A} (seen l : list A) :
  NoDup (unique_from seen l).
Proof.
  revert seen. induction l as [|a l IH]; intros seen; simpl; [constructor|].
  destruct (decide (a ∈ seen)); [apply IH|].
  constructor; [|apply IH].
  rewrite unique_from_spec. intros [_ Hn]. apply Hn. by left.
Qed.

Lemma NoDup_unique {A} `{EqDecision A} (l : list A) : NoDup (unique l).
Proof. apply NoDup_unique_from. Qed.




(** ** fix_cagr_graph.py and display_results.py: reading the rates back *)

Section ReadBack.

Import FixCagrGraph.

(** The record that [create_corrected_cagr_graph] appends for an item of
    the mapping, when both rates are there. *)
Lemma growth_record_cases (ts : gmap string (gmap string float))
    (acc : list Visualization.Growth) (item : string * string) :
  match ts !! item.1 with
  | None => growth_record ts acc item = Ok acc
  | Some data =>
      match data !! "establishments_cagr", data !! "employees_cagr" with
      | Some est, Some emp =>
          growth_record ts acc item
          = Ok (acc ++ [Visualization.mkGrowth item.2 est emp])
      | None, _ =>
          growth_record ts acc item = Raise (KeyError "establishments_cagr")
      | Some _, None =>
          growth_record ts acc item = Raise (KeyError "employees_cagr")
      end
  end.
Proof.
  destruct item as [jp en]. unfold growth_record, getitem. simpl.
  destruct (ts !! jp) as [data|]; [|done].
  destruct (data !! "establishments_cagr"); [|done].
  destruct (data !! "employees_cagr"); done.
Qed.



Lemma growth_loop_cases (ts : gmap string (gmap string float))
    (mapping : list (string * string)) (acc : list Visualization.Growth) :
  (forall item data, item ∈ mapping -> ts !! item.1 = Some data ->
     is_Some (data !! "establishments_cagr") /\
     is_Some (data !! "employees_cagr")) /\
  Py.for_each mapping (growth_record ts) acc
  = Ok (acc ++ omap (mapped_record ts) mapping)
  \/
  ~ (forall item data, item ∈ mapping -> ts !! item.1 = Some data ->
     is_Some (data !! "establishments_cagr") /\
     is_Some (data !! "employees_cagr")) /\
  exists key,
    Py.for_each mapping (growth_record ts) acc = Raise (KeyError key) /\
    key ∈ ["establishments_cagr"; "employees_cagr"].
Proof.
  revert acc. induction mapping as [|item mapping IH]; intros acc.
  - left. split; [intros item data Hin; inversion Hin|].
    simpl. by rewrite app_nil_r.
  - pose proof (growth_record_cases ts acc item) as Hc. simpl.
    unfold mapped_record at 1 3.
    destruct (ts !! item.1) as [data|] eqn:Hts.
    + destruct (data !! "establishments_cagr") as [est|] eqn:Hest;
        [destruct (data !! "employees_cagr") as [emp|] eqn:Hemp|].
      * rewrite Hc. simpl.
        destruct (IH (acc ++ [Visualization.mkGrowth item.2 est emp]))
          as [[Hall Heq]|[Hnot Hraise]].
        -- left. split.
           ++ intros item' data' Hin Hd.
              apply elem_of_cons in Hin as [->|Hin]; [|eauto].
              rewrite Hts in Hd. injection Hd as <-.
              rewrite Hest, Hemp. eauto.
           ++ rewrite Heq, Hest, Hemp. simpl. by rewrite <- app_assoc.
        -- right. split; [|done]. intros Hall. apply Hnot.
           intros item' data' Hin. apply Hall. by right.
      * right. rewrite Hc. split.
        -- intros Hall. destruct (Hall item data) as [_ [v Hv]];
             [by left | done | congruence].
        -- exists "employees_cagr". split; [done|]. right. by left.
      * right. rewrite Hc. split.
        -- intros Hall. destruct (Hall item data) as [[v Hv] _];
             [by left | done | congruence].
        -- exists "establishments_cagr". split; [done|]. by left.
    + rewrite Hc. simpl.
      destruct (IH acc) as [[Hall Heq]|[Hnot Hraise]].
      * left. split; [|done].
        intros item' data' Hin Hd.
        apply elem_of_cons in Hin as [->|Hin]; [congruence | eauto].
      * right. split; [|done]. intros Hall. apply Hnot.
        intros item' data' Hin. apply Hall. by right.
Qed.

End ReadBack.

(** The records of the loop are none exactly when no city of the mapping
    has an entry. *)
Lemma mapped_records_nil (ts : gmap string (gmap string float))
    (mapping : list (string * string)) :
  (forall item data, item ∈ mapping -> ts !! item.1 = Some data ->
     is_Some (data !! "establishments_cagr") /\
     is_Some (data !! "employees_cagr")) ->
  omap (mapped_record ts) mapping = [] <->
  forall item, item ∈ mapping -> ts !! item.1 = None.
Proof.
  induction mapping as [|item mapping IH]; intros Hall.
  - split; [|done]. intros _ item Hin. inversion Hin.
  - assert (Hall' : forall item data, item ∈ mapping ->
              ts !! item.1 = Some data ->
              is_Some (data !! "establishments_cagr") /\
              is_Some (data !! "employees_cagr")).
    { intros item' data' Hin. apply Hall. by right. }
    simpl. unfold mapped_record at 1.
    destruct (ts !! item.1) as [data|] eqn:Hts; simpl.
    + destruct (Hall item data) as [[est Hest] [emp Hemp]]; [by left | done|].
      rewrite Hest, Hemp. simpl. split; [done|].
      intros Hnone. specialize (Hnone item). rewrite Hts in Hnone.
      discriminate Hnone. by left.
    + rewrite (IH Hall'). split.
      * intros Hnone item' Hin.
        apply elem_of_cons in Hin as [->|Hin]; [done | by apply Hnone].
      * intros Hnone item' Hin. apply Hnone. by right.
Qed.

(** X5: the frame [growth_df] that [create_corrected_cagr_graph] prints,
    draws and returns is computed exactly when every city of the mapping
    that has an entry in [city_timeseries] has both rates in it and at
    least one city of the mapping has an entry; it is then what
    [sort_values('emp_cagr')] makes of the records of these cities, taken
    in the order of the mapping under their English names. When no city
    of the mapping has an entry, sorting the frame without columns raises
    KeyError for [emp_cagr]; when a rate is missing, the loop raises
    KeyError for it. *)
Theorem corrected_graph_needs_both_rates `{FrameLibrary}
    (ts : gmap string (gmap string float)) :
  (both_rates_stored ts ->
   (exists item, item ∈ Visualization.city_mapping /\ is_Some (ts !! item.1)) ->
   FixCagrGraph.growth_df_of ts
   = Ok (sort_values_emp_cagr
           (omap (mapped_record ts) Visualization.city_mapping)) /\
   omap (mapped_record ts) Visualization.city_mapping <> []) /\
  ((forall item, item ∈ Visualization.city_mapping -> ts !! item.1 = None) ->
   FixCagrGraph.growth_df_of ts = Raise (KeyError "emp_cagr")) /\
  (~ both_rates_stored ts ->
   exists key,
     FixCagrGraph.growth_df_of ts = Raise (KeyError key) /\
     key ∈ ["establishments_cagr"; "employees_cagr"]).
Proof.
  unfold FixCagrGraph.growth_df_of, FixCagrGraph.growth_data_of,
    both_rates_stored.
  generalize Visualization.city_mapping as mapping. intros mapping.
  destruct (growth_loop_cases ts mapping [])
    as [[Hall Heq]|[Hnot (key & Hraise & Hkey)]].
  - rewrite Heq. simpl.
    pose proof (mapped_records_nil ts mapping Hall) as Hnil.
    split; [|split].
    + intros _ (item & Hin & [data Hdata]).
      destruct (omap (mapped_record ts) mapping)
        as [|g records] eqn:Hrecords; [|done].
      rewrite (proj1 Hnil eq_refl item Hin) in Hdata. discriminate.
    + intros Hnone. apply Hnil in Hnone. by rewrite Hnone.
    + intros Hnot. by destruct Hnot.
  - rewrite Hraise. simpl. split; [|split].
    + intros Hall. by destruct Hnot.
    + intros Hnone. destruct Hnot. intros item data Hin Hdata.
      rewrite (Hnone item Hin) in Hdata. discriminate.
    + intros _. by exists key.
Qed.

Lemma corrected_graph_needs_both_rates_witness :
  (Visualization.growth_city <$>
     match @FixCagrGraph.growth_df_of Examples.frame Examples.stored_rates with
     | Ok growth_df => growth_df
     | Raise _ => []
     end) = ["Gifu"; "Kashiwa"] /\
  @FixCagrGraph.growth_df_of Examples.frame Examples.unmapped_rates
  = Raise (KeyError "emp_cagr").
Proof.
  destruct (@corrected_graph_needs_both_rates Examples.frame
              Examples.stored_rates) as [Hok _].
  destruct (@corrected_graph_needs_both_rates Examples.frame
              Examples.unmapped_rates) as (_ & Hnone & _).
  split.
  - destruct Hok as [-> _].
    + intros item data Hin Hdata. unfold Visualization.city_mapping in Hin.
      repeat (apply elem_of_cons in Hin as [->|Hin];
              [vm_compute in Hdata;
               first [discriminate Hdata
                     | injection Hdata as <-; split; eexists; reflexivity]|]).
      inversion Hin.
    + exists ("柏市", "Kashiwa"). split; [|eexists; reflexivity].
      unfold Visualization.city_mapping. rewrite !elem_of_cons. tauto.
    + vm_compute. reflexivity.
  - apply Hnone. intros item Hin. unfold Visualization.city_mapping in Hin.
    repeat (apply elem_of_cons in Hin as [->|Hin]; [reflexivity|]).
    inversion Hin.
Defined.

Section AfterTimeSeries.

Context `{NumericLibrary}.

Lemma of_city_nonempty (df : DataFrame) (c : string) :
  0 < length (of_city c df) -> c ∈ cities df.
Proof.
  intros Hlen. unfold of_city in Hlen.
  destruct (filter _ df) as [|r l] eqn:Hf; [simpl in Hlen; lia|].
  assert (Hr : r ∈ filter (fun r => city r = c) df) by (rewrite Hf; left).
  apply list_elem_of_filter in Hr as [Hr1 Hr2]. apply cities_spec. eauto.
Qed.

(** A city with at least three observations has an entry, and the entry
    has no rate for a column whose first and last values are not both
    greater than zero. *)
Lemma missing_rate_key (df : DataFrame) (ts : gmap string (gmap string float))
    (c col : string) (vals : list float) (first_value last_value : float) :
  ComprehensiveAnalysis.city_timeseries_of df = Ok ts ->
  3 <= length (of_city c df) ->
  col ∈ ComprehensiveAnalysis.trend_columns ->
  values col (sort_values_year (of_city c df)) = Ok vals ->
  ends vals = Ok (first_value, last_value) ->
  both_positive first_value last_value = false ->
  exists t, ts !! c = Some t /\ t !! (col +:+ "_cagr") = None.
Proof.
  intros Hts Hlen Hcol Hv He Hpos.
  destruct (dict_for_lookup _ _ _ Hts c) as [Hin _].
  specialize (Hin (of_city_nonempty df c ltac:(lia))).
  destruct (ts !! c) as [t|] eqn:Hc.
  - exists t. split; [done|].
    apply city_trends_entry_Some in Hin
      as (_ & est & est0 & est1 & emp & emp0 & emp1
          & Hest & Hends & Hemp & Hendm & _ & _ & ->).
    destruct (stored_cagr_lookup est emp est0 est1 emp0 emp1) as [Hk1 Hk2].
    simpl in Hk1, Hk2.
    unfold ComprehensiveAnalysis.trend_columns in Hcol.
    apply elem_of_cons in Hcol as [->|Hcol];
      [|apply elem_of_cons in Hcol as [->|Hcol]; [|inversion Hcol]].
    + change ("establishments" +:+ "_cagr") with "establishments_cagr".
      rewrite Hk1. rewrite Hest in Hv. injection Hv as <-.
      rewrite Hends in He. injection He as <- <-. by rewrite Hpos.
    + change ("employees" +:+ "_cagr") with "employees_cagr".
      rewrite Hk2. rewrite Hemp in Hv. injection Hv as <-.
      rewrite Hendm in He. injection He as <- <-. by rewrite Hpos.
  - unfold ComprehensiveAnalysis.city_trends_entry in Hin.
    rewrite length_sort_values_year in Hin.
    case_bool_decide; [|lia].
    apply fmap_Some_Ok in Hin as (t & _ & Hn). discriminate.
Qed.

End AfterTimeSeries.

(** X6: when a city of the mapping has at least three observations and
    the first and last values of its establishments or of its employees
    are not both greater than zero, [time_series_analysis] stores no rate
    for that column and [create_corrected_cagr_graph], run on its result,
    raises KeyError for one of the two rates. *)
Theorem corrected_graph_after_time_series `{NumericLibrary} (df : DataFrame)
    (ts : gmap string (gmap string float)) (item : string * string)
    (col : string) (vals : list float) (first_value last_value : float) :
  ComprehensiveAnalysis.city_timeseries_of df = Ok ts ->
  item ∈ Visualization.city_mapping ->
  3 <= length (of_city item.1 df) ->
  col ∈ ComprehensiveAnalysis.trend_columns ->
  values col (sort_values_year (of_city item.1 df)) = Ok vals ->
  ends vals = Ok (first_value, last_value) ->
  both_positive first_value last_value = false ->
  exists key,
    FixCagrGraph.growth_data_of ts = Raise (KeyError key) /\
    key ∈ ["establishments_cagr"; "employees_cagr"].
Proof.
  intros Hts Hitem Hlen Hcol Hv He Hpos.
  destruct (missing_rate_key df ts item.1 col vals first_value last_value)
    as (t & Hc & Hnone); try done.
  destruct (growth_loop_cases ts Visualization.city_mapping [])
    as [[Hall _]|[_ Hraise]]; [|exact Hraise].
  exfalso. destruct (Hall item t Hitem Hc) as [[v1 H1] [v2 H2]].
  unfold ComprehensiveAnalysis.trend_columns in Hcol.
  apply elem_of_cons in Hcol as [->|Hcol];
    [|apply elem_of_cons in Hcol as [->|Hcol]; [|inversion Hcol]].
  - change ("establishments" +:+ "_cagr") with "establishments_cagr" in Hnone.
    rewrite Hnone in H1. discriminate.
  - change ("employees" +:+ "_cagr") with "employees_cagr" in Hnone.
    rewrite Hnone in H2. discriminate.
Qed.

Lemma corrected_graph_after_time_series_witness :
  exists key,
    FixCagrGraph.growth_data_of
      (match @ComprehensiveAnalysis.city_timeseries_of Sample.library
               Examples.kashiwa_no_employees with
       | Ok ts => ts
       | Raise _ => ∅
       end)
    = Raise (KeyError key) /\
    key ∈ ["establishments_cagr"; "employees_cagr"].
Proof.
  eapply (@corrected_graph_after_time_series Sample.library
            Examples.kashiwa_no_employees _ ("柏市", "Kashiwa") "employees").
  - reflexivity.
  - right. left.
  - vm_compute. lia.
  - right. left.
  - reflexivity.
  - reflexivity.
  - reflexivity.
Defined.

(** X7: for the same city, [display_analysis_results] reads the missing
    rate with [data.get(key, 0)]: no KeyError is raised and [cagr_data]
    holds 0 for it, as for a rate that is zero. *)
Theorem displayed_rate_zero `{NumericLibrary} (df : DataFrame)
    (ts : gmap string (gmap string float)) (c col : string)
    (vals : list float) (first_value last_value : float) :
  ComprehensiveAnalysis.city_timeseries_of df = Ok ts ->
  3 <= length (of_city c df) ->
  col ∈ ComprehensiveAnalysis.trend_columns ->
  values col (sort_values_year (of_city c df)) = Ok vals ->
  ends vals = Ok (first_value, last_value) ->
  both_positive first_value last_value = false ->
  exists rates,
    DisplayResults.cagr_data ts !! c = Some rates /\
    (if decide (col = "establishments") then fst rates else snd rates)
    = 0%float.
Proof.
  intros Hts Hlen Hcol Hv He Hpos.
  destruct (missing_rate_key df ts c col vals first_value last_value)
    as (t & Hc & Hnone); try done.
  unfold DisplayResults.cagr_data. rewrite lookup_fmap, Hc. simpl.
  eexists. split; [reflexivity|].
  unfold ComprehensiveAnalysis.trend_columns in Hcol.
  apply elem_of_cons in Hcol as [->|Hcol];
    [|apply elem_of_cons in Hcol as [->|Hcol]; [|inversion Hcol]].
  - change ("establishments" +:+ "_cagr") with "establishments_cagr" in Hnone.
    simpl. unfold DisplayResults.get_or_zero. by rewrite Hnone.
  - change ("employees" +:+ "_cagr") with "employees_cagr" in Hnone.
    simpl. unfold DisplayResults.get_or_zero. by rewrite Hnone.
Qed.

Lemma displayed_rate_zero_witness :
  exists rates,
    DisplayResults.cagr_data
      (match @ComprehensiveAnalysis.city_timeseries_of Sample.library
               Examples.kashiwa_no_employees with
       | Ok ts => ts
       | Raise _ => ∅
       end) !! "柏市" = Some rates /\
    (if decide ("employees" = "establishments") then fst rates else snd rates)
    = 0%float.
Proof.
  eapply (@displayed_rate_zero Sample.library
            Examples.kashiwa_no_employees _ "柏市" "employees").
  - reflexivity.
  - vm_compute. lia.
  - right. left.
  - reflexivity.
  - reflexivity.
  - reflexivity.
Defined.

(** ** english_visualization.py and fixed_visualization.py *)

Lemma list_loop_mapM {R} (records : string -> result (list R)) keys
    (l0 : list R) :
  Py.for_each keys
    (fun l k => Py.bind (records k) (fun rs => Ok (l ++ rs))) l0
  = Py.bind (mapM records keys) (fun rss => Ok (l0 ++ concat rss)).
Proof.
  revert l0. induction keys as [|a keys IH]; intros l0; simpl.
  - by rewrite app_nil_r.
  - destruct (records a) as [rs|e]; simpl; [|done].
    rewrite IH. destruct (mapM records keys) as [rss|e]; simpl; [|done].
    by rewrite app_assoc.
Qed.

Lemma mapM_result_cons {A B} (f : A -> result B) (a : A) (l : list A) :
  mapM f (a :: l)
  = Py.bind (f a) (fun y => Py.bind (mapM f l) (fun k => Ok (y :: k))).
Proof. reflexivity. Qed.

Lemma list_for_mapM {R} (records : string -> result (list R)) keys :
  Py.list_for keys records
  = Py.bind (mapM records keys) (fun rss => Ok (concat rss)).
Proof. unfold Py.list_for. by rewrite list_loop_mapM. Qed.

Section Translation.

Context `{NumericLibrary}.
Import Visualization.

(** The record of a city under another label. *)
Lemma growth_record_label (label label' : string) (city_data : DataFrame)
    (records : list Growth) :
  growth_record label city_data = Ok records ->
  growth_record label' city_data
  = Ok (map (fun g => mkGrowth label' (est_cagr g) (emp_cagr g)) records) /\
  Forall (fun g => growth_city g = label) records.
Proof.
  unfold growth_record. case_bool_decide.
  - intros Hr.
    apply bind_Ok in Hr as (e07 & -> & Hr).
    apply bind_Ok in Hr as (e21 & -> & Hr).
    apply bind_Ok in Hr as (m07 & -> & Hr).
    apply bind_Ok in Hr as (m21 & -> & Hr). injection Hr as <-.
    simpl. split; [done|]. by repeat constructor.
  - intros [= <-]. split; [done | constructor].
Qed.

End Translation.

(** X8: on a table for which [create_growth_comparison] of
    fixed_visualization.py computes its records,
    [create_growth_rate_comparison] of english_visualization.py computes
    the same rates for the cities of its mapping, in the same order and
    under their English names, and has no record for the other cities. *)
Theorem english_growth_is_translation `{NumericLibrary} (df : DataFrame)
    (records : list Visualization.Growth) :
  Visualization.growth_data_of df = Ok records ->
  Visualization.english_growth_data_of df
  = Ok (omap (fun g =>
                english ← Visualization.mapping_get Visualization.city_mapping
                            (Visualization.growth_city g);
                Some (Visualization.mkGrowth english
                        (Visualization.est_cagr g) (Visualization.emp_cagr g)))
          records).
Proof.
  unfold Visualization.growth_data_of, Visualization.english_growth_data_of.
  rewrite !list_for_mapM.
  generalize Visualization.city_mapping as mapping.
  generalize (cities df) as cs. intros cs mapping Hr.
  apply bind_Ok in Hr as (rss & Hrss & [= <-]).
  match goal with
  | |- Py.bind (mapM ?f' cs) _ = Ok (omap ?tr _) =>
      assert (Haux : exists ess, mapM f' cs = Ok ess /\
                                 concat ess = omap tr (concat rss));
        [|destruct Haux as (ess & -> & <-); done]
  end.
  revert rss Hrss. induction cs as [|c cs IH]; intros rss Hrss.
  - injection Hrss as <-. by exists [].
  - rewrite mapM_result_cons in Hrss |- *.
    apply bind_Ok in Hrss as (rs & Hc & Hrss).
    apply bind_Ok in Hrss as (rss' & Hcs & [= <-]).
    destruct (IH rss' Hcs) as (ess & -> & Heq).
    simpl concat. rewrite omap_app, <- Heq.
    destruct (Visualization.mapping_get mapping c) as [english|] eqn:Hm.
    + destruct (growth_record_label c english _ _ Hc) as [-> Hall].
      eexists. split; [reflexivity|]. simpl. f_equal.
      clear Hc. induction Hall as [|g rs Hg _ IHrs]; simpl; [done|].
      rewrite Hg, Hm. simpl. by rewrite IHrs.
    + destruct (growth_record_label c c _ _ Hc) as [_ Hall].
      eexists. split; [reflexivity|]. simpl.
      match goal with
      | |- _ = ?l ++ _ => assert (Hnil : l = []); [|by rewrite Hnil]
      end.
      clear Hc. induction Hall as [|g rs Hg _ IHrs]; simpl; [done|].
      rewrite Hg, Hm. simpl. exact IHrs.
Qed.

Lemma english_growth_is_translation_witness :
  exists records,
    @Visualization.growth_data_of Sample.library Examples.three_cities
    = Ok records /\
    length records = 2 /\
    (Visualization.growth_city <$>
       match @Visualization.english_growth_data_of Sample.library
               Examples.three_cities with
       | Ok english => english
       | Raise _ => []
       end) = ["Kashiwa"; "Gifu"].
Proof.
  eexists. split; [reflexivity|]. split; [reflexivity|].
  rewrite (@english_growth_is_translation Sample.library Examples.three_cities
             _ eq_refl).
  vm_compute. reflexivity.
Defined.

(** ** The three reference years and the filter on 2014 *)

Lemma filter_eq_iff {A} (P Q : A -> Prop)
    `{!forall x, Decision (P x)} `{!forall x, Decision (Q x)} (l : list A) :
  filter P l = filter Q l <-> forall x, x ∈ l -> (P x <-> Q x).
Proof.
  induction l as [|a l IH].
  - split; [|done]. intros _ x Hx. inversion Hx.
  - rewrite !filter_cons. split.
    + intros Heq x Hx.
      destruct (decide (P a)) as [HP|HP], (decide (Q a)) as [HQ|HQ].
      * injection Heq as Heq. apply elem_of_cons in Hx as [->|Hx]; [tauto|].
        by apply IH.
      * exfalso. apply HQ.
        assert (Ha : a ∈ filter Q l) by (rewrite <- Heq; left).
        by apply list_elem_of_filter in Ha as [? _].
      * exfalso. apply HP.
        assert (Ha : a ∈ filter P l) by (rewrite Heq; left).
        by apply list_elem_of_filter in Ha as [? _].
      * apply elem_of_cons in Hx as [->|Hx]; [tauto|]. by apply IH.
    + intros Hall.
      assert (Hl : filter P l = filter Q l).
      { apply IH. intros x Hx. apply Hall. by right. }
      pose proof (Hall a (list_elem_of_here _ _)) as Ha.
      destruct (decide (P a)), (decide (Q a)); try tauto. by rewrite Hl.
Qed.

(** X9: the rows that english_visualization.py and fixed_visualization.py
    select with [isin([2007, 2012, 2021])] are the rows that
    create_presentation_figures.py keeps with [!= 2014] exactly when the
    table has no year other than 2007, 2012, 2014 and 2021. *)
Theorem three_point_filter_agrees (df : DataFrame) :
  ThreePoint.df_3point df = not_of_year 2014 df <->
  Forall (fun r => year r ∈ [2007; 2012; 2014; 2021]%Z) df.
Proof.
  unfold ThreePoint.df_3point, not_of_year.
  rewrite filter_eq_iff, Forall_forall. apply forall_proper. intros r.
  apply forall_proper. intros _.
  rewrite !elem_of_cons, !elem_of_nil. split.
  - intros Hiff. destruct (decide (year r = 2014%Z)) as [->|Hne]; [tauto|].
    apply Hiff in Hne. tauto.
  - intros Hin. split; [lia|]. intros Hne. lia.
Qed.

(** ** analysis.py: the graphs *)

Section ComprehensiveGraphs.

Import Graphs.

Lemma city_rows_have_column (df : DataFrame) (metric c : string) :
  (forall r, r ∈ df -> is_Some (metrics r !! metric)) ->
  exists vals, values metric (sort_values_year (of_city c df)) = Ok vals.
Proof.
  intros Hcol. apply is_Ok_exists, values_Ok. intros r Hr.
  rewrite elem_of_sort_values_year in Hr.
  apply list_elem_of_filter in Hr as [_ Hr]. by apply Hcol.
Qed.

(** The lines of one plot, by the number of cities of the table. *)
Lemma metric_lines_cases (df : DataFrame) (metric : string) :
  (forall r, r ∈ df -> is_Some (metrics r !! metric)) ->
  (length (cities df) <= 2 ->
   exists lines, metric_lines df metric = Ok lines /\
     line_label <$> lines = cities df /\
     line_color <$> lines = take (length (cities df)) colors) /\
  (2 < length (cities df) -> metric_lines df metric = Raise IndexError).
Proof.
  intros Hcol. unfold metric_lines.
  destruct (cities df) as [|c0 [|c1 [|c2 rest]]]; simpl length.
  - split; [|lia]. intros _. by exists [].
  - split; [|lia]. intros _.
    destruct (city_rows_have_column df metric c0 Hcol) as [v0 H0].
    cbn [imap]. rewrite mapM_result_cons. unfold city_line at 1. cbn [fst snd].
    rewrite H0. by eexists.
  - split; [|lia]. intros _.
    destruct (city_rows_have_column df metric c0 Hcol) as [v0 H0].
    destruct (city_rows_have_column df metric c1 Hcol) as [v1 H1].
    cbn [imap]. rewrite !mapM_result_cons. unfold city_line. cbn [fst snd compose].
    rewrite H0, H1. by eexists.
  - split; [lia|]. intros _.
    destruct (city_rows_have_column df metric c0 Hcol) as [v0 H0].
    destruct (city_rows_have_column df metric c1 Hcol) as [v1 H1].
    destruct (city_rows_have_column df metric c2 Hcol) as [v2 H2].
    cbn [imap]. rewrite !mapM_result_cons. unfold city_line. cbn [fst snd compose].
    by rewrite H0, H1, H2.
Qed.

End ComprehensiveGraphs.

(** X10: [create_comprehensive_graphs] draws for at most two cities. On a
    table with a third city whose rows all have a cell for
    [establishments], the function raises IndexError: the first plot
    reads [colors[j]] of a list of two colours. *)
Theorem graphs_raise_beyond_two_cities (df : DataFrame) :
  2 < length (cities df) ->
  (forall r, r ∈ df -> is_Some (metrics r !! "establishments")) ->
  Graphs.create_comprehensive_graphs df = Raise IndexError.
Proof.
  intros Hlen Hcol. unfold Graphs.create_comprehensive_graphs.
  change Analysis.table_metrics
    with ("establishments" :: ["employees"; "sales"; "salesArea"]).
  rewrite mapM_result_cons.
  destruct (metric_lines_cases df "establishments" Hcol) as [_ Hraise].
  by rewrite (Hraise Hlen).
Qed.

Lemma graphs_raise_beyond_two_cities_witness :
  Graphs.create_comprehensive_graphs Examples.three_cities = Raise IndexError.
Proof.
  apply graphs_raise_beyond_two_cities.
  - vm_compute. lia.
  - intros r Hr. unfold Examples.three_cities in Hr.
    repeat (apply elem_of_cons in Hr as [->|Hr]; [by eexists|]).
    inversion Hr.
Defined.

(** X11: with at most two cities and a cell for the metric in every row,
    a plot of [create_comprehensive_graphs] has one line per city, in the
    order of first appearance, with the first colours of the list. *)
Theorem one_line_per_city (df : DataFrame) (metric : string) :
  length (cities df) <= 2 ->
  (forall r, r ∈ df -> is_Some (metrics r !! metric)) ->
  exists lines, Graphs.metric_lines df metric = Ok lines /\
    Graphs.line_label <$> lines = cities df /\
    Graphs.line_color <$> lines = take (length (cities df)) Graphs.colors.
Proof.
  intros Hlen Hcol.
  destruct (metric_lines_cases df metric Hcol) as [Hok _]. by apply Hok.
Qed.

Lemma one_line_per_city_witness :
  exists lines, Graphs.metric_lines Sample.missing_year "sales" = Ok lines /\
    Graphs.line_label <$> lines = ["C"; "A"] /\
    Graphs.line_color <$> lines = ["#1f77b4"; "#ff7f0e"].
Proof.
  apply (one_line_per_city Sample.missing_year "sales").
  - vm_compute. lia.
  - intros r Hr. unfold Sample.missing_year in Hr.
    repeat (apply elem_of_cons in Hr as [->|Hr]; [by eexists|]).
    inversion Hr.
Defined.

(** ** analysis.py: the pivoted tables of the period changes *)

Section PeriodChangeGraph.

Import Analysis Graphs GraphPredicates.

Lemma filter_none {A} (P : A -> Prop) `{!forall x, Decision (P x)}
    (l : list A) :
  (forall x, x ∈ l -> ~ P x) -> filter P l = [].
Proof.
  intros Hall. destruct (filter P l) as [|a k] eqn:Hf; [done|].
  assert (Ha : a ∈ filter P l) by (rewrite Hf; left).
  apply list_elem_of_filter in Ha as [HP Ha]. by destruct (Hall a Ha).
Qed.

Lemma list_for_no_records {R} (records : string -> result (list R)) keys :
  (forall k, k ∈ keys -> records k = Ok []) ->
  Py.list_for keys records = Ok [].
Proof.
  unfold Py.list_for. induction keys as [|a keys IH]; intros Hall; [done|].
  simpl. rewrite (Hall a) by left. simpl. apply IH.
  intros k Hk. apply Hall. by right.
Qed.

(** Without a row for 2012 no period can be compared. *)
Lemma no_2012_no_records (df : DataFrame) (c : string) :
  (forall r, r ∈ df -> year r <> 2012%Z) -> city_records df c = Ok [].
Proof.
  intros Hno. unfold city_records.
  assert (H2012 : of_year 2012 (sort_values_year (of_city c df)) = []).
  { apply filter_none. intros r Hr. rewrite elem_of_sort_values_year in Hr.
    apply list_elem_of_filter in Hr as [_ Hr]. by apply Hno. }
  case_bool_decide; [|done]. rewrite H2012. unfold period_records.
  rewrite !bool_decide_eq_false_2 by (simpl; lia). done.
Qed.

Lemma elem_of_concat {A} (x : A) (ls : list (list A)) :
  x ∈ concat ls <-> exists l, x ∈ l /\ l ∈ ls.
Proof.
  rewrite list_elem_of_In, in_concat. split.
  - intros (l & Hl & Hx). exists l. by rewrite !list_elem_of_In.
  - intros (l & Hx & Hl). exists l. by rewrite <- !list_elem_of_In.
Qed.

Lemma period_records_shape (c period : string) (sd ed : DataFrame)
    (records : list ChangeRecord) :
  period_records c period sd ed = Ok records ->
  records = [] \/
  exists v1 v2 v3,
    records = [mkChangeRecord c period "establishments" v1;
               mkChangeRecord c period "employees" v2;
               mkChangeRecord c period "sales" v3].
Proof.
  unfold period_records. case_bool_decide; [|intros [= <-]; by left].
  unfold Py.list_for, graph_metrics, change_record. simpl. intros Hr.
  apply bind_Ok in Hr as (l1 & H1 & Hr).
  apply bind_Ok in H1 as (r1 & H1 & [= <-]).
  apply bind_Ok in H1 as (s1 & _ & H1).
  apply bind_Ok in H1 as (e1 & _ & [= <-]).
  apply bind_Ok in Hr as (l2 & H2 & Hr).
  apply bind_Ok in H2 as (r2 & H2 & [= <-]).
  apply bind_Ok in H2 as (s2 & _ & H2).
  apply bind_Ok in H2 as (e2 & _ & [= <-]).
  apply bind_Ok in Hr as (l3 & H3 & [= <-]).
  apply bind_Ok in H3 as (r3 & H3 & [= <-]).
  apply bind_Ok in H3 as (s3 & _ & H3).
  apply bind_Ok in H3 as (e3 & _ & [= <-]).
  right. by eexists _, _, _.
Qed.

Lemma city_records_keys (df : DataFrame) (c : string)
    (records : list ChangeRecord) :
  city_records df c = Ok records ->
  Forall (fun r => record_city r = c) records /\
  NoDup (record_key <$> records).
Proof.
  unfold city_records. case_bool_decide; [|intros [= <-]; split; constructor].
  intros Hr.
  apply bind_Ok in Hr as (first_period & H1 & Hr).
  apply bind_Ok in Hr as (second_period & H2 & [= <-]).
  apply period_records_shape in H1 as [->|(a1 & a2 & a3 & ->)];
    apply period_records_shape in H2 as [->|(b1 & b2 & b3 & ->)];
    (split; [by repeat constructor|]); simpl; unfold record_key; simpl;
    repeat (apply NoDup_cons; split;
            [rewrite ?elem_of_cons, elem_of_nil; intros Hin;
             repeat (destruct Hin as [Hin|Hin]; [discriminate|]); done|]);
    apply NoDup_nil_2.
Qed.

(** No two records of [change_data] have the same city, period and
    metric. *)
Lemma change_data_keys (df : DataFrame) (change_data : list ChangeRecord) :
  change_data_of df = Ok change_data -> NoDup (record_key <$> change_data).
Proof.
  unfold change_data_of. rewrite list_for_mapM. intros Hr.
  apply bind_Ok in Hr as (rss & Hrss & [= <-]).
  pose proof (NoDup_unique (map city df)) as Hnd. fold (cities df) in Hnd.
  revert rss Hrss. induction Hnd as [|c cs Hc Hnd IH]; intros rss Hrss.
  - injection Hrss as <-. constructor.
  - rewrite mapM_result_cons in Hrss.
    apply bind_Ok in Hrss as (rs & Hrs & Hrss).
    apply bind_Ok in Hrss as (rss' & Hcs & [= <-]).
    simpl. rewrite fmap_app. apply NoDup_app.
    destruct (city_records_keys _ _ _ Hrs) as [Hcity Hkeys].
    split; [done|]. split; [|by apply IH].
    intros k Hk Hk'.
    apply list_elem_of_fmap in Hk as (r & -> & Hr).
    apply list_elem_of_fmap in Hk' as (r' & Heq & Hr').
    apply elem_of_concat in Hr' as (rs' & Hr' & Hrs').
    apply mapM_result_elem in Hcs as [Hcs _].
    destruct (Hcs rs' Hrs') as (c' & Hc' & Hrec).
    apply city_records_keys in Hrec as [Hcity' _].
    rewrite Forall_forall in Hcity, Hcity'.
    apply Hc. replace c with c'; [done|].
    rewrite <- (Hcity r Hr), <- (Hcity' r' Hr').
    unfold record_key in Heq. congruence.
Qed.

(** The rows of one metric have distinct pairs of city and period. *)
Lemma metric_rows_keys (df : DataFrame) (change_data : list ChangeRecord)
    (metric : string) :
  change_data_of df = Ok change_data ->
  NoDup ((fun r => (record_city r, record_period r)) <$>
           filter (fun r => record_metric r = metric) change_data).
Proof.
  intros Hcd. apply change_data_keys in Hcd.
  apply (NoDup_fmap_1 (fun cp : string * string => (cp.1, cp.2, metric))).
  rewrite <- list_fmap_compose.
  eapply sublist_NoDup; [exact Hcd|].
  etrans;
    [|apply fmap_sublist,
        (sublist_filter (fun r => record_metric r = metric) change_data)].
  match goal with
  | |- ?l `sublist_of` ?k => replace l with k; [done|]
  end.
  apply list_fmap_ext. intros i r Hr.
  apply list_elem_of_lookup_2, list_elem_of_filter in Hr as [<- _]. done.
Qed.

End PeriodChangeGraph.

(** X12: on a table without a row for 2012, no period can be compared,
    [change_data] is empty and [create_period_change_graph] raises
    [KeyError: 'metric'] when it selects the rows of the first metric. *)
Theorem period_change_graph_needs_2012 (df : DataFrame) :
  (forall r, r ∈ df -> year r <> 2012%Z) ->
  Analysis.change_data_of df = Ok [] /\
  Graphs.pivot_tables df = Raise (KeyError "metric").
Proof.
  intros Hno.
  assert (Hcd : Analysis.change_data_of df = Ok []).
  { apply list_for_no_records. intros c _. by apply no_2012_no_records. }
  split; [done|]. unfold Graphs.pivot_tables. by rewrite Hcd.
Qed.

Lemma period_change_graph_needs_2012_witness :
  Analysis.change_data_of Sample.two_points = Ok [] /\
  Graphs.pivot_tables Sample.two_points = Raise (KeyError "metric").
Proof.
  apply period_change_graph_needs_2012.
  intros r Hr. unfold Sample.two_points in Hr.
  repeat (apply elem_of_cons in Hr as [->|Hr]; [simpl; lia|]).
  inversion Hr.
Defined.

(** X13: when [change_data] is computed and not empty,
    [create_period_change_graph] pivots one table per metric and the
    pivot never meets a repeated pair of city and period (no ValueError);
    the table of a metric holds, for every record of that metric, its
    percentage change under its city and period. *)
Theorem pivot_holds_every_change (df : DataFrame)
    (change_data : list Analysis.ChangeRecord) :
  Analysis.change_data_of df = Ok change_data -> change_data <> [] ->
  exists tables,
    Graphs.pivot_tables df = Ok tables /\
    length tables = 3 /\
    forall i metric r,
      Analysis.graph_metrics !! i = Some metric ->
      r ∈ change_data -> Analysis.record_metric r = metric ->
      exists t, tables !! i = Some t /\
        t !! (Analysis.record_city r, Analysis.record_period r)
        = Some (Analysis.record_change_pct r).
Proof.
  intros Hcd Hne. unfold Graphs.pivot_tables. rewrite Hcd. simpl.
  assert (Hpivot : forall metric,
    (rows ← Graphs.of_metric metric change_data; Graphs.pivot rows)
    = Ok (list_to_map
            ((fun r => ((Analysis.record_city r, Analysis.record_period r),
                        Analysis.record_change_pct r)) <$>
             filter (fun r => Analysis.record_metric r = metric) change_data))).
  { intros metric. unfold Graphs.of_metric.
    destruct change_data as [|r0 cd0] eqn:Hshape; [done|]. rewrite <- Hshape.
    change (Graphs.pivot
              (filter (fun r => Analysis.record_metric r = metric) change_data)
            = Ok (list_to_map
                    ((fun r => ((Analysis.record_city r, Analysis.record_period r),
                                Analysis.record_change_pct r)) <$>
                     filter (fun r => Analysis.record_metric r = metric)
                       change_data))).
    unfold Graphs.pivot. rewrite bool_decide_eq_true_2; [done|].
    subst change_data. by apply (metric_rows_keys df). }
  rewrite !Hpivot. eexists. split; [reflexivity|]. split; [done|].
  intros i metric r Hi Hr Hm.
  assert (Hlook :
    (list_to_map
       ((fun r => ((Analysis.record_city r, Analysis.record_period r),
                   Analysis.record_change_pct r)) <$>
        filter (fun r => Analysis.record_metric r = metric) change_data)
     : gmap (string * string) float)
    !! (Analysis.record_city r, Analysis.record_period r)
    = Some (Analysis.record_change_pct r)).
  { apply elem_of_list_to_map_1.
    - rewrite <- list_fmap_compose. by apply (metric_rows_keys df).
    - apply list_elem_of_fmap. exists r. split; [done|].
      by apply list_elem_of_filter. }
  destruct i as [|[|[|i]]]; simpl in Hi; try discriminate;
    injection Hi as <-; eexists; (split; [reflexivity | exact Hlook]).
Qed.

Lemma pivot_holds_every_change_witness :
  exists cd tables,
    Analysis.change_data_of Sample.three_points = Ok cd /\
    length cd = 6 /\
    Graphs.pivot_tables Sample.three_points = Ok tables /\
    length tables = 3.
Proof.
  eexists.
  destruct (pivot_holds_every_change Sample.three_points _ eq_refl)
    as (tables & Ht & Hlen & _); [discriminate|].
  exists tables. split; [reflexivity|]. split; [reflexivity|]. done.
Defined.

(** ** create_presentation_figures.py: the growth chart *)

Section GrowthChart.

Import CityGrowthChart.

Lemma mapM_result_labelled {A B} (f : A -> result B) (g : B -> A)
    (l : list A) :
  (forall x, x ∈ l -> exists y, f x = Ok y /\ g y = x) ->
  exists k, mapM f l = Ok k /\ g <$> k = l.
Proof.
  induction l as [|a l IH]; intros Hall; [by exists []|].
  destruct (Hall a) as (y & Hy & Hg); [left|].
  destruct IH as (k & Hk & Hgk); [intros x Hx; apply Hall; by right|].
  exists (y :: k). rewrite mapM_result_cons, Hy, Hk.
  split; [done|]. change (g y :: (g <$> k) = a :: l). by rewrite Hg, Hgk.
Qed.

(** A year among the rows of a city has a first row, taken from the
    table. *)
Lemma first_row_of_year (df : DataFrame) (c : string) (y : Z) :
  y ∈ map year (of_city c df) ->
  exists r, first_row (of_year y (sort_values_year (of_city c df))) = Ok r /\
            r ∈ df.
Proof.
  intros Hy. apply list_elem_of_fmap in Hy as (r0 & -> & Hr0).
  destruct (of_year (year r0) (sort_values_year (of_city c df)))
    as [|r rows] eqn:Hrows.
  - assert (Hin : r0 ∈ of_year (year r0) (sort_values_year (of_city c df))).
    { apply list_elem_of_filter. split; [done|].
      by apply elem_of_sort_values_year. }
    rewrite Hrows in Hin. inversion Hin.
  - exists r. split; [done|].
    assert (Hin : r ∈ of_year (year r0) (sort_values_year (of_city c df)))
      by (rewrite Hrows; left).
    apply list_elem_of_filter in Hin as [_ Hin].
    rewrite elem_of_sort_values_year in Hin.
    by apply list_elem_of_filter in Hin as [_ Hin].
Qed.

End GrowthChart.

(** X14: [create_city_growth_chart] takes [iloc[0]] of the rows of 2007
    and of 2021 only for the cities that the test before the loop found
    to have both years, so that it is never out of bounds: on a table
    whose rows have the two columns, [growth_data] is computed and has one
    record for each of these cities, in the order of the group keys. *)
Theorem growth_chart_in_bounds (df : DataFrame) :
  has_columns ["establishments"; "employees"] df ->
  exists records,
    CityGrowthChart.growth_data_of df = Ok records /\
    CityGrowthChart.growth_city <$> records
    = CityGrowthChart.cities_with_both df.
Proof.
  intros Hcols. unfold CityGrowthChart.growth_data_of.
  apply mapM_result_labelled. intros c Hc.
  apply list_elem_of_filter in Hc as [[H07 H21] _].
  destruct (first_row_of_year df c _ H07) as (r07 & Hr07 & Hin07).
  destruct (first_row_of_year df c _ H21) as (r21 & Hr21 & Hin21).
  unfold CityGrowthChart.growth_record. rewrite Hr07, Hr21. simpl.
  unfold cell.
  destruct (Hcols r21 "establishments" Hin21) as [e21 ->]; [rewrite !elem_of_cons; tauto|].
  destruct (Hcols r07 "establishments" Hin07) as [e07 ->]; [rewrite !elem_of_cons; tauto|].
  destruct (Hcols r21 "employees" Hin21) as [m21 ->]; [rewrite !elem_of_cons; tauto|].
  destruct (Hcols r07 "employees" Hin07) as [m07 ->]; [rewrite !elem_of_cons; tauto|].
  simpl. by eexists.
Qed.

Lemma growth_chart_in_bounds_witness :
  exists records,
    CityGrowthChart.growth_data_of Examples.three_cities = Ok records /\
    CityGrowthChart.growth_city <$> records
    = CityGrowthChart.cities_with_both Examples.three_cities.
Proof.
  apply growth_chart_in_bounds, has_columns_sample.
  unfold Examples.three_cities.
  repeat (apply Forall_cons; split; [split; by eexists|]).
  apply Forall_nil_2.
Defined.

(** ** analysis.py: the period column and the files of the table *)

Section PeriodColumn.

Import Analysis.

Lemma for_each_ext {A S} (l : list A) (body body' : S -> A -> result S)
    (s : S) :
  (forall s a, a ∈ l -> body s a = body' s a) ->
  Py.for_each l body s = Py.for_each l body' s.
Proof.
  revert s. induction l as [|a l IH]; intros s Hext; [done|].
  simpl. rewrite (Hext s a) by left.
  destruct (body' s a) as [s'|e]; [|done]. simpl.
  apply IH. intros s0 a0 Ha0. apply Hext. by right.
Qed.

Lemma dict_for_ext {V} (keys : list string)
    (entry entry' : string -> result (option V)) :
  (forall k, k ∈ keys -> entry k = entry' k) ->
  Py.dict_for keys entry = Py.dict_for keys entry'.
Proof.
  intros Hext. unfold Py.dict_for. apply for_each_ext.
  intros d k Hk. by rewrite (Hext k Hk).
Qed.

Lemma add_period_column_filter (P : Row -> Prop)
    `{!forall r, Decision (P r)} (df : DataFrame) :
  (forall r, P (mkRow (city r) (year r) (metrics r)
                  (<["period" := period_label (year r)]> (labels r))) <-> P r) ->
  filter P (add_period_column df) = add_period_column (filter P df).
Proof.
  intros HP. unfold add_period_column.
  induction df as [|r df IH]; [done|].
  simpl. rewrite !filter_cons.
  destruct (decide (P r)) as [Hr|Hr].
  - rewrite decide_True by (by apply HP). simpl. by rewrite IH.
  - rewrite decide_False by (by rewrite HP). exact IH.
Qed.

Lemma of_city_add_period_column (c : string) (df : DataFrame) :
  of_city c (add_period_column df) = add_period_column (of_city c df).
Proof. by apply add_period_column_filter. Qed.

Lemma of_year_add_period_column (y : Z) (df : DataFrame) :
  of_year y (add_period_column df) = add_period_column (of_year y df).
Proof. by apply add_period_column_filter. Qed.

Lemma iloc0_add_period_column (metric : string) (df : DataFrame) :
  iloc0 metric (add_period_column df) = iloc0 metric df.
Proof. by destruct df. Qed.

Lemma cities_add_period_column (df : DataFrame) :
  cities (add_period_column df) = cities df.
Proof.
  unfold cities, add_period_column. f_equal.
  rewrite map_map. by apply map_ext.
Qed.

Lemma length_add_period_column (df : DataFrame) :
  length (add_period_column df) = length df.
Proof. unfold add_period_column. apply length_map. Qed.

Lemma compare_rows_add_period_column (sd ed : DataFrame) :
  compare_rows (add_period_column sd) (add_period_column ed)
  = compare_rows sd ed.
Proof.
  unfold compare_rows. rewrite !length_add_period_column.
  case_bool_decide; [|done]. f_equal. apply dict_for_ext. intros metric _.
  unfold metric_change. by rewrite !iloc0_add_period_column.
Qed.

(** The computation does not read the column that the call adds. *)
Lemma period_stats_add_period_column (df : DataFrame) :
  period_stats_of (add_period_column df) = period_stats_of df.
Proof.
  unfold period_stats_of. rewrite cities_add_period_column.
  apply dict_for_ext. intros c _. unfold city_stats. f_equal.
  rewrite of_city_add_period_column.
  apply dict_for_ext. intros p _. unfold period_change.
  destruct (period_years p) as [y_start y_end].
  by rewrite !of_year_add_period_column, compare_rows_add_period_column.
Qed.

Lemma add_period_column_twice (df : DataFrame) :
  add_period_column (add_period_column df) = add_period_column df.
Proof.
  unfold add_period_column. rewrite map_map. apply map_ext. intros r. simpl.
  by rewrite insert_insert_eq.
Qed.

(** The report is built for every table that has a row. *)
Lemma generate_markdown_report_cases (now : Timestamp)
    (period_stats : PeriodStats) (df : DataFrame) :
  match df with
  | [] => generate_markdown_report now period_stats df = Raise ValueError
  | _ :: _ =>
      exists md, generate_markdown_report now period_stats df = Ok md /\
                 city_tables md = period_stats /\
                 analysis_date md = (ts_year now, ts_month now, ts_day now)
  end.
Proof.
  destruct df as [|r df]; [done|].
  unfold generate_markdown_report. simpl. by eexists.
Qed.

End PeriodColumn.

(** X15: [create_period_comparison_table] writes the JSON file before it
    builds the report. When the computation of [period_stats] raises,
    nothing is written; on a table without rows the JSON file is written
    and the call then raises ValueError ([min] of no year) without
    writing the report; on every other table both files are written, with
    the value returned in them, and the value returned is the one computed
    from the table as it was given: the column [period] that the call adds
    is not read. *)
Theorem period_table_files (now : Analysis.Timestamp) (df : DataFrame) :
  (forall e, Analysis.period_stats_of df = Raise e ->
     Analysis.written (Analysis.create_period_comparison_table now df) = [] /\
     Analysis.outcome (Analysis.create_period_comparison_table now df)
     = Raise e) /\
  (forall stats, Analysis.period_stats_of df = Ok stats ->
     (df = [] ->
        Analysis.written (Analysis.create_period_comparison_table now df)
        = [("period_comparison.json", Analysis.Json stats)] /\
        Analysis.outcome (Analysis.create_period_comparison_table now df)
        = Raise ValueError) /\
     (df <> [] ->
        exists md,
          Analysis.written (Analysis.create_period_comparison_table now df)
          = [("period_comparison.json", Analysis.Json stats);
             ("period_comparison.md", Analysis.Markdown md)] /\
          Analysis.city_tables md = stats /\
          Analysis.outcome (Analysis.create_period_comparison_table now df)
          = Ok stats)).
Proof.
  unfold Analysis.create_period_comparison_table.
  rewrite period_stats_add_period_column. split.
  - intros e ->. done.
  - intros stats ->.
    pose proof (generate_markdown_report_cases now stats
                  (Analysis.add_period_column df)) as Hmd.
    split.
    + intros ->. change (Analysis.add_period_column []) with (@nil Row) in *.
      by rewrite Hmd.
    + intros Hne. destruct df as [|r df]; [done|].
      destruct Hmd as (md & -> & Htables & _). by exists md.
Qed.

Lemma period_table_files_witness :
  exists stats md,
    Analysis.period_stats_of Sample.three_points = Ok stats /\
    Analysis.written
      (Analysis.create_period_comparison_table Sample.first_run
         Sample.three_points)
    = [("period_comparison.json", Analysis.Json stats);
       ("period_comparison.md", Analysis.Markdown md)].
Proof.
  eexists.
  destruct (period_table_files Sample.first_run Sample.three_points)
    as [_ Hok].
  destruct (Hok _ eq_refl) as [_ Hfiles].
  destruct Hfiles as (md & Hw & _); [discriminate|].
  exists md. split; [reflexivity | exact Hw].
Defined.

(** X16: a second call of [create_period_comparison_table], on the table
    that the first call has changed, leaves the table as the first call
    left it and has the same outcome, at whatever time it is made. *)
Theorem second_call_same_outcome (now1 now2 : Analysis.Timestamp)
    (df : DataFrame) :
  Analysis.table
    (Analysis.create_period_comparison_table now2
       (Analysis.table (Analysis.create_period_comparison_table now1 df)))
  = Analysis.table (Analysis.create_period_comparison_table now1 df) /\
  Analysis.outcome
    (Analysis.create_period_comparison_table now2
       (Analysis.table (Analysis.create_period_comparison_table now1 df)))
  = Analysis.outcome (Analysis.create_period_comparison_table now1 df).
Proof.
  rewrite !table_after_call, add_period_column_twice. split; [done|].
  unfold Analysis.create_period_comparison_table.
  rewrite add_period_column_twice, period_stats_add_period_column.
  destruct (Analysis.period_stats_of df) as [stats|e]; [|done].
  pose proof (generate_markdown_report_cases now1 stats
                (Analysis.add_period_column df)) as H1.
  pose proof (generate_markdown_report_cases now2 stats
                (Analysis.add_period_column df)) as H2.
  destruct (Analysis.add_period_column df) as [|r rows].
  - by rewrite H1, H2.
  - destruct H1 as (md1 & -> & _), H2 as (md2 & -> & _). done.
Qed.

(** ** comprehensive_analysis.py and display_results.py: the strong
    correlations *)

Section StrongCorrelations.

Context `{NumericLibrary} `{CorrelationLibrary}.
Import Correlation.

Lemma pairs_filter (P : string -> Prop) `{!forall c, Decision (P c)}
    (cols : list string) (a b : string) :
  (a, b) ∈ pairs (filter P cols) <-> (a, b) ∈ pairs cols /\ P a /\ P b.
Proof.
  induction cols as [|c cols IH]; simpl.
  - rewrite elem_of_nil. tauto.
  - rewrite filter_cons. destruct (decide (P c)) as [Hc|Hc]; simpl.
    + rewrite !elem_of_app, IH, !list_elem_of_fmap. split.
      * intros [(b' & [= -> ->] & Hb)|Hin]; [|tauto].
        apply list_elem_of_filter in Hb as [Hb Hin]. eauto 6.
      * intros [[(b' & [= -> ->] & Hb)|Hin] [Ha Hb']]; [|tauto].
        left. exists b'. split; [done|]. by apply list_elem_of_filter.
    + rewrite elem_of_app, IH, list_elem_of_fmap. split; [tauto|].
      intros [[(b' & [= -> ->] & Hb)|Hin] [Ha Hb']]; [done | tauto].
Qed.

(** The keys of the dict after the two loops. *)
Lemma strong_pairs_lookup (df : DataFrame) (ps : list (string * string))
    (strong : gmap string float) (key : string) :
  is_Some (fold_left (strong_pair df) ps strong !! key) <->
  is_Some (strong !! key) \/
  exists ab, ab ∈ ps /\ key = ab.1 +:+ "_vs_" +:+ ab.2 /\
    (0x1.6666666666666p-1
     <? abs (series_corr (column df ab.1) (column df ab.2)))%float = true.
Proof.
  revert strong. induction ps as [|ab ps IH]; intros strong; simpl.
  - split; [by left|]. intros [Hs|(ab & Hin & _)]; [done | inversion Hin].
  - rewrite IH. unfold strong_pair at 1.
    destruct (0x1.6666666666666p-1
              <? abs (series_corr (column df ab.1) (column df ab.2)))%float
      eqn:Hstrong.
    + split.
      * intros [Hs|(ab' & Hin & Hkey & Hab')].
        -- destruct (decide (key = ab.1 +:+ "_vs_" +:+ ab.2)) as [->|Hne].
           ++ right. exists ab. split; [left | done].
           ++ rewrite lookup_insert_ne in Hs by done. by left.
        -- right. exists ab'. split; [by right | done].
      * intros [Hs|(ab' & Hin & Hkey & Hab')].
        -- left. destruct (decide (key = ab.1 +:+ "_vs_" +:+ ab.2)) as [->|Hne].
           ++ by rewrite lookup_insert_eq.
           ++ by rewrite lookup_insert_ne.
        -- apply elem_of_cons in Hin as [->|Hin].
           ++ left. subst key. by rewrite lookup_insert_eq.
           ++ right. exists ab'. done.
    + split.
      * intros [Hs|(ab' & Hin & Hkey & Hab')]; [by left|].
        right. exists ab'. split; [by right | done].
      * intros [Hs|(ab' & Hin & Hkey & Hab')]; [by left|].
        apply elem_of_cons in Hin as [->|Hin]; [congruence|].
        right. exists ab'. done.
Qed.

(** A pair of the three main columns has its key in the dict exactly when
    both columns are in the table and strongly correlated. *)
Lemma strong_key_iff (df : DataFrame) (strong : gmap string float)
    (a b : string) :
  (a, b) ∈ [("establishments", "employees"); ("establishments", "sales");
            ("employees", "sales")] ->
  strong_correlations df = Some strong ->
  is_Some (strong !! (a +:+ "_vs_" +:+ b)) <-> strongly_correlated df a b.
Proof.
  intros Hab. unfold strong_correlations. case_bool_decide; [done|].
  intros [= <-]. rewrite strong_pairs_lookup, lookup_empty.
  unfold strongly_correlated. split.
  - intros [[? [=]]|([a' b'] & Hin & Hkey & Hstrong)].
    apply pairs_filter in Hin as (Hin & Ha & Hb). simpl in *.
    assert (a' = a /\ b' = b) as [-> ->]; [|done].
    unfold numeric_cols in Hin. simpl in Hin.
    rewrite !elem_of_cons, elem_of_nil in Hab.
    rewrite !elem_of_cons, elem_of_nil in Hin.
    destruct Hab as [[= -> ->]|[[= -> ->]|[[= -> ->]|[]]]];
      destruct Hin as [[= -> ->]|[[= -> ->]|[[= -> ->]|[[= -> ->]|[[= -> ->]|[[= -> ->]|[]]]]]]];
      done.
  - intros (Ha & Hb & Hstrong). right. exists (a, b).
    split; [|done]. apply pairs_filter. split; [|done].
    unfold numeric_cols. simpl.
    rewrite !elem_of_cons, elem_of_nil in Hab.
    rewrite !elem_of_cons.
    destruct Hab as [[= -> ->]|[[= -> ->]|[[= -> ->]|[]]]]; tauto.
Qed.

End StrongCorrelations.

(** X17: display_results.py prints the correlations of the three pairs of
    establishments, employees and sales by indexing the strong
    correlations that [correlation_analysis] stored. It prints them
    exactly when each of the three pairs is in the table and correlated
    above 0.7 in absolute value; otherwise the indexing raises. *)
Theorem printed_correlations_need_strong
    `{NumericLibrary} `{CorrelationLibrary}
    (df : DataFrame) (strong : gmap string float) :
  Correlation.strong_correlations df = Some strong ->
  Py.is_Ok (DisplayResults.printed_correlations strong) <->
  strongly_correlated df "establishments" "employees" /\
  strongly_correlated df "establishments" "sales" /\
  strongly_correlated df "employees" "sales".
Proof.
  intros Hstrong.
  rewrite <- (strong_key_iff df strong "establishments" "employees"),
          <- (strong_key_iff df strong "establishments" "sales"),
          <- (strong_key_iff df strong "employees" "sales");
    [|done || (rewrite !elem_of_cons; tauto)..].
  change ("establishments" +:+ "_vs_" +:+ "employees")
    with "establishments_vs_employees".
  change ("establishments" +:+ "_vs_" +:+ "sales")
    with "establishments_vs_sales".
  change ("employees" +:+ "_vs_" +:+ "sales") with "employees_vs_sales".
  unfold DisplayResults.printed_correlations, FixCagrGraph.getitem.
  destruct (strong !! "establishments_vs_employees") as [v1|]; simpl;
    [|split; [done | by intros [[? [=]] _]]].
  destruct (strong !! "establishments_vs_sales") as [v2|]; simpl;
    [|split; [done | by intros (_ & [? [=]] & _)]].
  destruct (strong !! "employees_vs_sales") as [v3|]; simpl;
    [|split; [done | by intros (_ & _ & [? [=]])]].
  split; [by eauto | done].
Qed.

Lemma printed_correlations_need_strong_witness :
  exists strong,
    @Correlation.strong_correlations Sample.library Examples.correlation
      Examples.growing_together = Some strong /\
    Py.is_Ok (DisplayResults.printed_correlations strong).
Proof.
  eexists. split; [reflexivity|].
  apply (@printed_correlations_need_strong Sample.library Examples.correlation
           Examples.growing_together _ eq_refl).
  assert (Hcols : forall col, col ∈ Correlation.numeric_cols ->
                    Correlation.in_columns Examples.growing_together col).
  { intros col Hcol. unfold Correlation.numeric_cols in Hcol.
    rewrite !elem_of_cons, elem_of_nil in Hcol.
    destruct Hcol as [->|[->|[->|[->|[]]]]];
      by repeat (apply Forall_cons; split; [by eexists|]). }
  repeat split; try (apply Hcols; unfold Correlation.numeric_cols;
                     rewrite !elem_of_cons; tauto);
    vm_compute; reflexivity.
Defined.

(** ** The order of floating-point numbers *)

Section FloatOrder.

Import SpecFloat.

Local Ltac compare_cases :=
  repeat match goal with
  | |- context [(?a ?= ?b)%Z] => destruct (Z.compare_spec a b)
  | |- context [PosDef.Pos.compare_cont Eq ?a ?b] =>
      change (PosDef.Pos.compare_cont Eq a b) with (Pos.compare a b);
      destruct (Pos.compare_spec a b)
  end; simpl; try done; try lia.

Lemma SFleb_trans (x y z : spec_float) :
  SFleb x y = true -> SFleb y z = true -> SFleb x z = true.
Proof.
  unfold SFleb, SFcompare.
  destruct x as [[]|[]| |[] m1 e1], y as [[]|[]| |[] m2 e2],
           z as [[]|[]| |[] m3 e3]; simpl; try done; compare_cases.
Qed.

Lemma SFltb_false_SFleb (x y : spec_float) :
  SFeqb x x = true -> SFeqb y y = true ->
  SFltb x y = false -> SFleb y x = true.
Proof.
  unfold SFeqb, SFltb, SFleb, SFcompare.
  destruct x as [[]|[]| |[] m1 e1], y as [[]|[]| |[] m2 e2];
    simpl; try done; intros _ _; compare_cases.
Qed.

Lemma SFltb_SFleb (x y : spec_float) : SFltb x y = true -> SFleb x y = true.
Proof. unfold SFltb, SFleb. by destruct (SFcompare x y) as [[]|]. Qed.

Lemma SFleb_refl (x : spec_float) : SFeqb x x = true -> SFleb x x = true.
Proof. unfold SFeqb, SFleb. by destruct (SFcompare x x) as [[]|]. Qed.

End FloatOrder.

Lemma leb_trans (x y z : float) :
  (x <=? y)%float = true -> (y <=? z)%float = true -> (x <=? z)%float = true.
Proof. rewrite !FloatAxioms.leb_spec. apply SFleb_trans. Qed.

Lemma ltb_false_leb (x y : float) :
  PrimFloat.is_nan x = false -> PrimFloat.is_nan y = false ->
  (x <? y)%float = false -> (y <=? x)%float = true.
Proof.
  unfold PrimFloat.is_nan. rewrite !negb_false_iff.
  rewrite !FloatAxioms.eqb_spec, FloatAxioms.ltb_spec, FloatAxioms.leb_spec.
  apply SFltb_false_SFleb.
Qed.

Lemma ltb_leb (x y : float) :
  (x <? y)%float = true -> (x <=? y)%float = true.
Proof.
  rewrite FloatAxioms.ltb_spec, FloatAxioms.leb_spec. apply SFltb_SFleb.
Qed.

Lemma leb_refl (x : float) :
  PrimFloat.is_nan x = false -> (x <=? x)%float = true.
Proof.
  unfold PrimFloat.is_nan. rewrite negb_false_iff.
  rewrite FloatAxioms.eqb_spec, FloatAxioms.leb_spec. apply SFleb_refl.
Qed.

(** ** thesis_key_findings.py: the rankings and the first finding *)

Section Rankings.

Context `{NumericLibrary}.
Import ThesisKeyFindings ThesisInsights.

Lemma insert_desc_Permutation (key : CityGrowth -> float)
    (x : string * CityGrowth) (l : list (string * CityGrowth)) :
  insert_desc key x l ≡ₚ x :: l.
Proof.
  induction l as [|y l IH]; simpl; [done|].
  destruct (key x.2 <? key y.2)%float; [|done].
  rewrite IH. apply Permutation_swap.
Qed.

Lemma sorted_desc_Permutation (key : CityGrowth -> float)
    (l : list (string * CityGrowth)) :
  sorted_desc key l ≡ₚ l.
Proof.
  induction l as [|x l IH]; simpl; [done|].
  by rewrite insert_desc_Permutation, IH.
Qed.

(** The first item of the sorted list has the greatest key. *)
Lemma sorted_desc_head (key : CityGrowth -> float)
    (l : list (string * CityGrowth)) (h : string * CityGrowth)
    (t : list (string * CityGrowth)) :
  (forall x, x ∈ l -> PrimFloat.is_nan (key x.2) = false) ->
  sorted_desc key l = h :: t ->
  forall x, x ∈ l -> (key x.2 <=? key h.2)%float = true.
Proof.
  revert h t. induction l as [|a l IH]; intros h t Hnan Hs x Hx;
    [inversion Hx|].
  simpl in Hs.
  assert (Hnan' : forall x, x ∈ l -> PrimFloat.is_nan (key x.2) = false).
  { intros y Hy. apply Hnan. by right. }
  destruct (sorted_desc key l) as [|h' t'] eqn:Hl.
  - assert (l = []) as ->.
    { apply Permutation_nil. by rewrite <- (sorted_desc_Permutation key l), Hl. }
    simpl in Hs. injection Hs as <- <-.
    apply list_elem_of_singleton in Hx as ->. apply leb_refl, Hnan. left.
  - simpl in Hs. pose proof (IH h' t' Hnan' eq_refl) as Hmax.
    assert (Hh' : h' ∈ l).
    { rewrite <- (sorted_desc_Permutation key l), Hl. left. }
    destruct (key a.2 <? key h'.2)%float eqn:Hlt.
    + injection Hs as <- <-.
      apply elem_of_cons in Hx as [->|Hx]; [by apply ltb_leb | by apply Hmax].
    + injection Hs as <- <-.
      apply elem_of_cons in Hx as [->|Hx]; [apply leb_refl, Hnan; left|].
      apply (leb_trans _ (key h'.2)); [by apply Hmax|].
      apply ltb_false_leb; [apply Hnan; left | by apply Hnan' | done].
Qed.

(** The items are the entries of the dict. *)
Lemma items_spec (df : DataFrame) (growth : gmap string CityGrowth)
    (c : string) (g : CityGrowth) :
  city_growth_of df = Ok growth ->
  (c, g) ∈ items df growth <-> growth !! c = Some g.
Proof.
  intros Hg. unfold items. rewrite list_elem_of_omap. split.
  - intros (c' & _ & Hc'). destruct (growth !! c') as [g'|] eqn:Hl; [|done].
    simpl in Hc'. by injection Hc' as -> ->.
  - intros Hl. exists c. rewrite Hl. split; [|done].
    destruct (decide (c ∈ cities df)) as [Hc|Hc]; [done|].
    destruct (dict_for_lookup _ _ _ Hg c) as [_ Hout].
    rewrite (Hout Hc) in Hl. done.
Qed.

Lemma items_NoDup (df : DataFrame) (growth : gmap string CityGrowth) :
  NoDup (items df growth).*1.
Proof.
  unfold items. pose proof (NoDup_unique (map city df)) as Hnd.
  fold (cities df) in Hnd.
  induction Hnd as [|c cs Hc Hnd IH]; simpl; [constructor|].
  destruct (growth !! c) as [g|]; simpl; [|done].
  constructor; [|done]. intros Hin.
  apply list_elem_of_fmap in Hin as ([c' g'] & -> & Hin).
  apply list_elem_of_omap in Hin as (c'' & Hc'' & Heq).
  destruct (growth !! c'') as [g''|]; [|done].
  simpl in Heq. injection Heq as <- <-. done.
Qed.

Lemma items_length (df : DataFrame) (growth : gmap string CityGrowth) :
  city_growth_of df = Ok growth -> length (items df growth) = size growth.
Proof.
  intros Hg. rewrite <- length_map_to_list. apply Permutation_length.
  apply NoDup_Permutation.
  - eapply NoDup_fmap_1, items_NoDup.
  - apply NoDup_map_to_list.
  - intros [c g]. by rewrite items_spec, elem_of_map_to_list.
Qed.

(** A ranking holds the first three entries at most, each city once. *)
Lemma ranking_spec (key : CityGrowth -> float) (df : DataFrame)
    (growth : gmap string CityGrowth) :
  city_growth_of df = Ok growth ->
  length (take 3 (sorted_desc key (items df growth)))
  = Nat.min 3 (size growth) /\
  NoDup (take 3 (sorted_desc key (items df growth))).*1 /\
  forall c g, (c, g) ∈ take 3 (sorted_desc key (items df growth)) ->
    growth !! c = Some g.
Proof.
  intros Hg. split; [|split].
  - rewrite length_take, (Permutation_length (sorted_desc_Permutation _ _)).
    by rewrite items_length.
  - rewrite fmap_take. eapply sublist_NoDup; [|apply sublist_take].
    rewrite (sorted_desc_Permutation key). apply items_NoDup.
  - intros c g Hin. apply (items_spec df growth c g Hg).
    rewrite <- (sorted_desc_Permutation key).
    by apply (subseteq_take 3).
Qed.

Lemma dict_for_nothing {V} (keys : list string)
    (entry : string -> result (option V)) :
  (forall k, k ∈ keys -> entry k = Ok None) -> Py.dict_for keys entry = Ok ∅.
Proof.
  unfold Py.dict_for. generalize (∅ : gmap string V).
  induction keys as [|a keys IH]; intros d Hall; [done|].
  simpl. rewrite (Hall a) by left. simpl. apply IH.
  intros k Hk. apply Hall. by right.
Qed.

End Rankings.

(** X18: each ranking of [identify_top_growth_cities] holds three entries
    of [city_growth], or all of them when there are fewer, each with its
    city, and no city twice. *)
Theorem rankings_hold_entries `{NumericLibrary} (df : DataFrame)
    (growth : gmap string ThesisKeyFindings.CityGrowth) :
  ThesisKeyFindings.city_growth_of df = Ok growth ->
  (length (ThesisInsights.top_establishment_growth df growth)
   = Nat.min 3 (size growth) /\
   NoDup (ThesisInsights.top_establishment_growth df growth).*1 /\
   forall c g, (c, g) ∈ ThesisInsights.top_establishment_growth df growth ->
     growth !! c = Some g) /\
  (length (ThesisInsights.top_employee_growth df growth)
   = Nat.min 3 (size growth) /\
   NoDup (ThesisInsights.top_employee_growth df growth).*1 /\
   forall c g, (c, g) ∈ ThesisInsights.top_employee_growth df growth ->
     growth !! c = Some g).
Proof.
  intros Hg. split; by apply ranking_spec.
Qed.

Lemma rankings_hold_entries_witness :
  exists growth,
    @ThesisKeyFindings.city_growth_of Sample.library Examples.two_growing
    = Ok growth /\
    length (ThesisInsights.top_establishment_growth Examples.two_growing growth)
    = 2.
Proof.
  eexists. split; [reflexivity|].
  destruct (@rankings_hold_entries Sample.library Examples.two_growing _ eq_refl)
    as [[Hlen _] _].
  rewrite Hlen. vm_compute. reflexivity.
Defined.

(** X19: when no city of the table has three observations,
    [identify_top_growth_cities] has no entry and empty rankings, and the
    first finding of [generate_thesis_insights] raises IndexError at
    [top_establishment_growth[0]]. *)
Theorem first_finding_needs_three_observations `{NumericLibrary}
    (df : DataFrame) :
  (forall c, length (of_city c df) < 3) ->
  ThesisKeyFindings.city_growth_of df = Ok ∅ /\
  ThesisInsights.first_finding df = Raise IndexError.
Proof.
  intros Hfew.
  assert (Hg : ThesisKeyFindings.city_growth_of df = Ok ∅).
  { apply dict_for_nothing. intros c _. by apply city_growth_entry_few. }
  split; [done|]. unfold ThesisInsights.first_finding. rewrite Hg. simpl.
  unfold ThesisInsights.top_establishment_growth, ThesisInsights.items.
  assert (Hitems : omap (fun c => pair c <$>
                      (∅ : gmap string ThesisKeyFindings.CityGrowth) !! c)
                     (cities df) = []).
  { induction (cities df) as [|c cs IH]; [done|].
    simpl. by rewrite lookup_empty. }
  by rewrite Hitems.
Qed.

Lemma first_finding_needs_three_observations_witness :
  @ThesisKeyFindings.city_growth_of Sample.library Sample.two_points = Ok ∅ /\
  @ThesisInsights.first_finding Sample.library Sample.two_points
  = Raise IndexError.
Proof.
  apply first_finding_needs_three_observations.
  intros c. unfold Sample.two_points, of_city.
  rewrite !filter_cons, filter_nil.
  repeat (destruct (decide _); simpl); lia.
Defined.

(** X20: when [city_growth] has an entry and no rate of establishments in
    it is NaN, the city that the first finding of
    [generate_thesis_insights] names is a city of [city_growth] with its
    rate, and no city has a greater rate. *)
Theorem first_finding_is_greatest `{NumericLibrary} (df : DataFrame)
    (growth : gmap string ThesisKeyFindings.CityGrowth) :
  ThesisKeyFindings.city_growth_of df = Ok growth ->
  growth <> ∅ ->
  map_Forall (fun _ g =>
    PrimFloat.is_nan (ThesisKeyFindings.establishments_cagr g) = false) growth ->
  exists c g,
    ThesisInsights.first_finding df
    = Ok (c, ThesisKeyFindings.establishments_cagr g) /\
    growth !! c = Some g /\
    map_Forall (fun _ g' =>
      (ThesisKeyFindings.establishments_cagr g'
       <=? ThesisKeyFindings.establishments_cagr g)%float = true) growth.
Proof.
  intros Hg Hne Hnan. unfold ThesisInsights.first_finding. rewrite Hg. simpl.
  unfold ThesisInsights.top_establishment_growth.
  destruct (ThesisInsights.sorted_desc ThesisKeyFindings.establishments_cagr
              (ThesisInsights.items df growth)) as [|[c g] t] eqn:Hs.
  - exfalso. apply Hne. apply map_size_empty_iff.
    rewrite <- (items_length df growth Hg).
    rewrite <- (Permutation_length
                  (sorted_desc_Permutation
                     ThesisKeyFindings.establishments_cagr _)).
    by rewrite Hs.
  - exists c, g. split; [done|].
    assert (Hin : (c, g) ∈ ThesisInsights.items df growth).
    { rewrite <- (sorted_desc_Permutation
                    ThesisKeyFindings.establishments_cagr), Hs. left. }
    split; [by apply (items_spec df growth c g Hg)|].
    intros c' g' Hl.
    apply (sorted_desc_head ThesisKeyFindings.establishments_cagr
             (ThesisInsights.items df growth) (c, g) t)
      with (x := (c', g')); [|done|].
    + intros [c0 g0] H0. apply (items_spec df growth c0 g0 Hg) in H0.
      by apply (Hnan c0 g0).
    + by apply (items_spec df growth c' g' Hg).
Qed.

Lemma first_finding_is_greatest_witness :
  exists c g,
    @ThesisInsights.first_finding Sample.library Examples.two_growing
    = Ok (c, ThesisKeyFindings.establishments_cagr g) /\
    c = "B".
Proof.
  destruct (@first_finding_is_greatest Sample.library Examples.two_growing
              _ eq_refl) as (c & g & Hf & _ & _).
  - intros Heq. apply (f_equal size) in Heq. vm_compute in Heq. discriminate.
  - apply (bool_decide_unpack _). vm_compute. exact I.
  - exists c, g. split; [exact Hf|].
    vm_compute in Hf. by injection Hf as <- _.
Defined.
